(** * Transaction data-integrity monitor: validation and SLA aggregation

    A shallow embedding of [TransactionMonitor] (transaction-monitoring.py):
    [validate_transaction], [analyze_performance], [generate_action_items]
    and [generate_daily_report], with the properties the specification
    states about them.

    Conventions of the embedding.
    - A Python [str] is a [string] with one [ascii] per character (code
      points below 256), so [String.length] is Python's [len].
    - A Python [float] is [pyfloat]: NaN, the two infinities, or a finite
      value given by the rational it denotes.  Comparisons of floats and
      ints are exact in Python, so they are comparisons of rationals here.
    - An exception is a value: [Raise e] in the result type [pyresult].
    - The query of [analyze_performance] is modelled twice. The first model
      takes REAL values as rationals and computes exactly; it carries the
      properties that hold whatever the rounding: the days reported, their
      order, the counts, bounds and inequalities. The second,
      [analyze_performance64], computes the REAL columns in binary64 as
      SQLite does, and carries the values of the result. *)

From Stdlib Require Import ZArith QArith String Ascii List Lia DecimalString.
From Stdlib Require Import Sorting.Sorted DecimalZ DecimalPos.
From Stdlib Require Import Floats.
From stdpp Require Import base option list strings gmap.

Local Open Scope string_scope.
Local Open Scope list_scope.

(** ** Python values *)

Inductive pyfloat : Type :=
| FNaN
| FInf (negative : bool)
| FFin (q : Q).

Inductive pyval : Type :=
| PyNone
| PyBool (b : bool)
| PyInt (z : Z)
| PyFloat (f : pyfloat)
| PyStr (s : string).

Inductive pyexn : Type :=
| KeyError (key : string)
| TypeError.

Inductive pyresult (A : Type) : Type :=
| Ok (a : A)
| Raise (e : pyexn).

Arguments Ok {A} a.
Arguments Raise {A} e.

Definition bind {A B : Type} (m : pyresult A) (k : A -> pyresult B) : pyresult B :=
  match m with
  | Ok a => k a
  | Raise e => Raise e
  end.

Declare Scope py_scope.
Delimit Scope py_scope with py.
Notation "'let!' x ':=' m 'in' k" := (bind m (fun x => k))
  (at level 10, x name, m at level 100, k at level 200) : py_scope.
Local Open Scope py_scope.


(** A transaction is a mapping from field names to values ([transaction[field]]). *)
Abbreviation transaction := (gmap string pyval).

(** [transaction[key]]: a missing key raises [KeyError]. *)
Definition getitem (tx : transaction) (key : string) : pyresult pyval :=
  match tx !! key with
  | Some v => Ok v
  | None => Raise (KeyError key)
  end.

(** [pd.isna] on a scalar: [None] and NaN are null, every other scalar is not. *)
Definition pd_isna (v : pyval) : bool :=
  match v with
  | PyNone => true
  | PyFloat FNaN => true
  | _ => false
  end.

(** The number a value denotes in an arithmetic comparison ([bool] is a
    subclass of [int]); [None] and [str] have none. *)
Definition as_number (v : pyval) : option pyfloat :=
  match v with
  | PyBool b => Some (FFin (if b then 1 else 0))
  | PyInt z => Some (FFin (inject_Z z))
  | PyFloat f => Some f
  | PyNone | PyStr _ => None
  end.

(** IEEE-754 ordering: every comparison with NaN is false. *)
Definition float_le (a b : pyfloat) : bool :=
  match a, b with
  | FNaN, _ | _, FNaN => false
  | FInf true, _ => true
  | _, FInf false => true
  | FInf false, _ => false
  | FFin _, FInf true => false
  | FFin p, FFin q => Qle_bool p q
  end.

Definition float_lt (a b : pyfloat) : bool :=
  match a, b with
  | FNaN, _ | _, FNaN => false
  | FInf true, FInf true => false
  | FInf true, _ => true
  | FInf false, _ => false
  | FFin _, FInf negative => negb negative
  | FFin p, FFin q => negb (Qle_bool q p)
  end.

(** [v <= c] and [v > c] for a numeric literal [c]; comparing [None] or a
    [str] with a number raises [TypeError]. *)
Definition py_le (v : pyval) (c : Q) : pyresult bool :=
  match as_number v with
  | Some a => Ok (float_le a (FFin c))
  | None => Raise TypeError
  end.

Definition py_gt (v : pyval) (c : Q) : pyresult bool :=
  match as_number v with
  | Some a => Ok (float_lt (FFin c) a)
  | None => Raise TypeError
  end.

(** [str.upper] on ASCII letters (it is applied to the field names only). *)
Definition ascii_upper (a : ascii) : ascii :=
  let n := nat_of_ascii a in
  if (97 <=? n)%nat && (n <=? 122)%nat then ascii_of_nat (n - 32) else a.

Fixpoint upper (s : string) : string :=
  match s with
  | EmptyString => EmptyString
  | String a s' => String (ascii_upper a) (upper s')
  end.

(** [str(int)]: decimal digits with a leading minus sign when negative. *)
Definition str_int (z : Z) : string := NilZero.string_of_int (Z.to_int z).

Section Validator.

(** [float.__repr__] on a finite float is the interpreter's (shortest
    round-trip digits); it is not part of this program and stays a parameter. *)
Variable float_repr : Q -> string.

Definition py_str (v : pyval) : string :=
  match v with
  | PyNone => "None"
  | PyBool true => "True"
  | PyBool false => "False"
  | PyInt z => str_int z
  | PyFloat FNaN => "nan"
  | PyFloat (FInf false) => "inf"
  | PyFloat (FInf true) => "-inf"
  | PyFloat (FFin q) => float_repr q
  | PyStr s => s
  end.

Definition required_fields : list string :=
  ["merchant_id"; "amount"; "currency"; "card_type"].

(** The loop over [required_fields]: one lookup per field, in order. *)
Fixpoint check_required (tx : transaction) (fields : list string)
    (error_codes : list string) : pyresult (list string) :=
  match fields with
  | [] => Ok error_codes
  | field :: fields' =>
      let! v := getitem tx field in
      check_required tx fields'
        (if pd_isna v then error_codes ++ ["MISSING_" +:+ upper field]
         else error_codes)
  end.

Definition validate_transaction (tx : transaction) : pyresult (bool * list string) :=
  let! error_codes := check_required tx required_fields [] in
  let! amount := getitem tx "amount" in
  let! invalid_amount := py_le amount 0%Q in
  let error_codes :=
    if invalid_amount then error_codes ++ ["INVALID_AMOUNT"] else error_codes in
  let! currency := getitem tx "currency" in
  let error_codes :=
    if negb (String.length (py_str currency) =? 3)%nat
    then error_codes ++ ["INVALID_CURRENCY"] else error_codes in
  let! processing_time := getitem tx "processing_time" in
  let! breach := py_gt processing_time 4%Q in
  let error_codes :=
    if breach then error_codes ++ ["SLA_BREACH"] else error_codes in
  Ok ((length error_codes =? 0)%nat, error_codes).

(** The code of a check that fires, nothing otherwise. *)
Definition code_if (b : bool) (code : string) : list string :=
  if b then [code] else [].

(** The error list of section 4.1, written as the specification words it:
    one optional code per check, in the order of the checks. *)
Definition spec_error_codes (merchant_id amount currency card_type : pyval)
    (amount_num time_num : pyfloat) : list string :=
  code_if (pd_isna merchant_id) "MISSING_MERCHANT_ID"
  ++ code_if (pd_isna amount) "MISSING_AMOUNT"
  ++ code_if (pd_isna currency) "MISSING_CURRENCY"
  ++ code_if (pd_isna card_type) "MISSING_CARD_TYPE"
  ++ code_if (float_le amount_num (FFin 0)) "INVALID_AMOUNT"
  ++ code_if (negb (String.length (py_str currency) =? 3)%nat) "INVALID_CURRENCY"
  ++ code_if (float_lt (FFin 4) time_num) "SLA_BREACH".

(** [tx] carries the five fields the validator reads, with these values. *)
Record has_fields (tx : transaction)
    (merchant_id amount currency card_type processing_time : pyval) : Prop :=
  { hf_merchant_id : tx !! "merchant_id" = Some merchant_id;
    hf_amount : tx !! "amount" = Some amount;
    hf_currency : tx !! "currency" = Some currency;
    hf_card_type : tx !! "card_type" = Some card_type;
    hf_processing_time : tx !! "processing_time" = Some processing_time }.

End Validator.

Definition tx_of (merchant_id amount currency card_type processing_time : pyval)
    : transaction :=
  <["merchant_id" := merchant_id]> (<["amount" := amount]>
  (<["currency" := currency]> (<["card_type" := card_type]>
  (<["processing_time" := processing_time]> (∅ : transaction))))).

Definition float_1_8 : Q := 8106479329266893 # 4503599627370496.


(** [{amount: -5, currency: "US", card_type: None, merchant_id: None,
      processing_time: 1.0}] *)
Definition tx_many_errors : transaction :=
  tx_of PyNone (PyInt (-5)) (PyStr "US") PyNone (PyFloat (FFin 1)).

(** A clean transaction. *)
Definition tx_clean : transaction :=
  tx_of (PyStr "M1") (PyInt 10) (PyStr "USD") (PyStr "credit") (PyFloat (FFin 1)).



(** The currency is [None], is NaN. *)
Definition tx_none_currency : transaction :=
  tx_of (PyStr "M1") (PyInt 10) PyNone (PyStr "credit") (PyFloat (FFin 1)).
Definition tx_nan_currency : transaction :=
  tx_of (PyStr "M1") (PyInt 10) (PyFloat FNaN) (PyStr "credit") (PyFloat (FFin 1)).


(** ** The transaction store and the aggregation query *)

(** A calendar date; SQLite's [DATE()] renders it as the text YYYY-MM-DD
    and compares such texts bytewise, which on zero-padded fields is the
    lexicographic order on (year, month, day). *)
Record Date : Type := { year : nat; month : nat; day : nat }.

Definition date_eqb (a b : Date) : bool :=
  (year a =? year b)%nat && (month a =? month b)%nat && (day a =? day b)%nat.

Definition date_ltb (a b : Date) : bool :=
  (year a <? year b)%nat
  || ((year a =? year b)%nat
      && ((month a <? month b)%nat
          || ((month a =? month b)%nat && (day a <? day b)%nat))).

Definition date_leb (a b : Date) : bool := negb (date_ltb b a).

Definition date_lt (a b : Date) : Prop := date_ltb a b = true.
Definition date_le (a b : Date) : Prop := date_leb a b = true.

(** A point in time: a date and the seconds elapsed since midnight. *)
Record Timestamp : Type := { ts_date : Date; ts_seconds : Z }.

(** A row of the [transactions] table; every column but the key is
    nullable. Here a REAL value is the rational it denotes and the
    arithmetic of the query is exact: this model carries the properties
    that do not depend on rounding (which days are reported, in which
    order, the counts, the bounds). The values the query computes in
    binary64 are those of [analyze_performance64] below. *)
Record TransactionRow : Type := {
  transaction_id : string;
  timestamp : option Timestamp;
  merchant_id : option string;
  amount : option Q;
  currency : option string;
  card_type : option string;
  response_code : option string;
  processing_time : option Q;
  error_code : option string;
  region : option string
}.

(** A row of the query's result. [avg_response_time] is NULL when every
    processing time of the day is NULL. *)
Record DailyMetrics : Type := {
  date : Date;
  total_transactions : Z;
  avg_response_time : option Q;
  error_rate : Q;
  sla_breaches : Z
}.

(** [DATE(timestamp)]: the date of the time stamp, NULL on NULL. *)
Definition sql_DATE (ts : option Timestamp) : option Date :=
  match ts with
  | Some t => Some (ts_date t)
  | None => None
  end.

(** [WHERE DATE(timestamp) BETWEEN start_date AND end_date]; a NULL date is
    not selected. *)
Definition in_range (start_date end_date : Date) (r : TransactionRow) : bool :=
  match sql_DATE (timestamp r) with
  | Some d => date_leb start_date d && date_leb d end_date
  | None => false
  end.

Definition on_date (d : Date) (r : TransactionRow) : bool :=
  match sql_DATE (timestamp r) with
  | Some d' => date_eqb d d'
  | None => false
  end.

(** [GROUP BY DATE(timestamp) ORDER BY DATE(timestamp)]: the keys of the
    groups, each once, in ascending order. *)
Fixpoint insert_date (d : Date) (ds : list Date) : list Date :=
  match ds with
  | [] => [d]
  | x :: xs =>
      if date_ltb d x then d :: ds
      else if date_eqb d x then ds
      else x :: insert_date d xs
  end.

Fixpoint group_dates (rows : list TransactionRow) : list Date :=
  match rows with
  | [] => []
  | r :: rows' =>
      match sql_DATE (timestamp r) with
      | Some d => insert_date d (group_dates rows')
      | None => group_dates rows'
      end
  end.

(** The aggregate functions. [COUNT( * )] counts rows, [SUM] adds, [AVG]
    is the mean of the values that are not NULL (NULL when there is none). *)
Definition sql_COUNT (rows : list TransactionRow) : Z := Z.of_nat (length rows).

Definition sql_SUM (xs : list Z) : Z := fold_right Z.add 0%Z xs.

Definition Qsum (xs : list Q) : Q := fold_right Qplus 0%Q xs.

Fixpoint non_null {A : Type} (xs : list (option A)) : list A :=
  match xs with
  | [] => []
  | Some x :: xs' => x :: non_null xs'
  | None :: xs' => non_null xs'
  end.

Definition sql_AVG (xs : list (option Q)) : option Q :=
  match non_null xs with
  | [] => None
  | vs => Some (Qsum vs / inject_Z (Z.of_nat (length vs)))%Q
  end.

(** [CASE WHEN error_code IS NOT NULL THEN 1 ELSE 0 END] *)
Definition error_flag (r : TransactionRow) : Z :=
  match error_code r with
  | Some _ => 1
  | None => 0
  end.

(** [CASE WHEN processing_time > 4.0 THEN 1 ELSE 0 END]; the comparison with
    NULL is NULL and takes the ELSE branch. *)
Definition breach_flag (r : TransactionRow) : Z :=
  match processing_time r with
  | Some t => if Qle_bool t 4 then 0 else 1
  | None => 0
  end.

(** The SELECT list over one group. *)
Definition aggregate (d : Date) (group : list TransactionRow) : DailyMetrics :=
  {| date := d;
     total_transactions := sql_COUNT group;
     avg_response_time := sql_AVG (map processing_time group);
     error_rate :=
       (inject_Z (sql_SUM (map error_flag group)) * 100
        / inject_Z (sql_COUNT group))%Q;
     sla_breaches := sql_SUM (map breach_flag group) |}.

Definition analyze_performance (store : list TransactionRow)
    (start_date end_date : Date) : list DailyMetrics :=
  let selected := List.filter (in_range start_date end_date) store in
  map (fun d => aggregate d (List.filter (on_date d) selected))
      (group_dates selected).

(** The transactions of one date, and the aggregates of section 4.2 over
    them in the specification's words. *)
Definition transactions_on (store : list TransactionRow) (d : Date)
    : list TransactionRow :=
  List.filter (on_date d) store.

Definition has_error (r : TransactionRow) : bool :=
  match error_code r with Some _ => true | None => false end.

Definition is_breach (r : TransactionRow) : bool :=
  match processing_time r with
  | Some t => negb (Qle_bool t 4)
  | None => false
  end.

Definition count (f : TransactionRow -> bool) (rows : list TransactionRow) : Z :=
  Z.of_nat (length (List.filter f rows)).

Definition mean (xs : list Q) : option Q :=
  match xs with
  | [] => None
  | _ => Some (Qsum xs / inject_Z (Z.of_nat (length xs)))%Q
  end.

Definition spec_metrics (store : list TransactionRow) (d : Date) : DailyMetrics :=
  let day_rows := transactions_on store d in
  {| date := d;
     total_transactions := Z.of_nat (length day_rows);
     avg_response_time := mean (non_null (map processing_time day_rows));
     error_rate :=
       (100 * inject_Z (count has_error day_rows)
        / inject_Z (Z.of_nat (length day_rows)))%Q;
     sla_breaches := count is_breach day_rows |}.

(** ** The SLA evaluator *)

(** The row [metrics.iloc[0]] the evaluator reads: the average and the
    rate are floats (NaN when undefined), the counts are integers. *)
Record Series : Type := {
  s_total_transactions : Z;
  s_avg_response_time : pyfloat;
  s_error_rate : pyfloat;
  s_sla_breaches : Z
}.

Definition newline : string := String "010"%char EmptyString.

(** [sep.join(items)] *)
Fixpoint join (sep : string) (items : list string) : string :=
  match items with
  | [] => ""
  | x :: rest =>
      match rest with
      | [] => x
      | _ :: _ => x +:+ sep +:+ join sep rest
      end
  end.

Definition urgent_item : string :=
  "- URGENT: Investigate high response times - SLA breach detected".
Definition error_item : string :=
  "- Analyze error patterns and implement corrective measures".
Definition review_item (breaches : Z) : string :=
  "- Review " +:+ str_int breaches +:+ " transactions exceeding response time SLA".
Definition no_action_item : string := "- No immediate actions required".

(** The list [actions] when the three tests have run. *)
Definition actions_of (metrics : Series) : list string :=
  let actions := [] in
  let actions :=
    if float_lt (FFin 4) (s_avg_response_time metrics)
    then actions ++ [urgent_item] else actions in
  let actions :=
    if float_lt (FFin 1) (s_error_rate metrics)
    then actions ++ [error_item] else actions in
  let actions :=
    if (0 <? s_sla_breaches metrics)%Z
    then actions ++ [review_item (s_sla_breaches metrics)] else actions in
  actions.

Definition generate_action_items (metrics : Series) : string :=
  match actions_of metrics with
  | [] => no_action_item
  | actions => join newline actions
  end.

(** The items of a text, one per line ([text.split("\n")]). *)
Fixpoint split_lines (text : string) : list string :=
  match text with
  | EmptyString => [""]
  | String c rest =>
      if Ascii.eqb c "010"%char then "" :: split_lines rest
      else match split_lines rest with
           | line :: lines => String c line :: lines
           | [] => [String c ""]
           end
  end.

(** An item spans one line when it holds no newline. *)
Fixpoint has_newline (s : string) : bool :=
  match s with
  | EmptyString => false
  | String c rest => Ascii.eqb c "010"%char || has_newline rest
  end.

(** The action items of section 4.3 in the specification's words. *)
Definition spec_action_items (metrics : Series) : list string :=
  let fired :=
    code_if (float_lt (FFin 4) (s_avg_response_time metrics)) urgent_item
    ++ code_if (float_lt (FFin 1) (s_error_rate metrics)) error_item
    ++ code_if (0 <? s_sla_breaches metrics)%Z
         (review_item (s_sla_breaches metrics)) in
  match fired with
  | [] => [no_action_item]
  | _ => fired
  end.

(** [{total_transactions: 100, avg_response_time: 1.8, error_rate: 2.0,
      sla_breaches: 3}] *)
Definition metrics_scenario : Series :=
  {| s_total_transactions := 100;
     s_avg_response_time := FFin float_1_8;
     s_error_rate := FFin 2;
     s_sla_breaches := 3 |}.

(** ** The daily report *)

Definition no_data_message : string := "No data available for specified date".

Definition str_nat (n : nat) : string := NilZero.string_of_uint (Nat.to_uint n).

Fixpoint zeros (n : nat) : string :=
  match n with
  | O => ""
  | S n' => String "0" (zeros n')
  end.

Definition pad_left (width : nat) (s : string) : string :=
  zeros (width - String.length s) +:+ s.

(** [str(date)]: YYYY-MM-DD. *)
Definition iso_date (d : Date) : string :=
  pad_left 4 (str_nat (year d)) +:+ "-" +:+ pad_left 2 (str_nat (month d))
  +:+ "-" +:+ pad_left 2 (str_nat (day d)).

(** [format(n, ",")]: the digits in groups of three from the right. *)
Fixpoint commas_rev (digits : list ascii) : list ascii :=
  match digits with
  | a :: b :: c :: ((_ :: _) as more) => a :: b :: c :: ","%char :: commas_rev more
  | _ => digits
  end.

Definition format_thousands (n : Z) : string :=
  (if (n <? 0)%Z then "-" else "")
  +:+ string_of_list_ascii
        (rev (commas_rev (rev (list_ascii_of_string (str_int (Z.abs n)))))).

(** [format(x, ".2f")] on a finite float: its exact value rounded to
    hundredths, ties to even. *)
Definition round_half_even (n d : Z) : Z :=
  let f := (n / d)%Z in
  let r := (n mod d)%Z in
  if (2 * r <? d)%Z then f
  else if (d <? 2 * r)%Z then (f + 1)%Z
  else if Z.even f then f else (f + 1)%Z.

Definition format_2f (q : Q) : string :=
  let hundredths := round_half_even (Z.abs (Qnum q) * 100) (Zpos (Qden q)) in
  (if (Qnum q <? 0)%Z then "-" else "")
  +:+ str_int (hundredths / 100) +:+ "."
  +:+ pad_left 2 (str_int (hundredths mod 100)).

Definition sla_mark (met : bool) : string :=
  if met then "✓ Met" else "✗ Not Met".

Definition indent : string := "        ".

(** The row the evaluator receives from the report. *)
Definition series_of (m : DailyMetrics) (avg : Q) : Series :=
  {| s_total_transactions := total_transactions m;
     s_avg_response_time := FFin avg;
     s_error_rate := FFin (error_rate m);
     s_sla_breaches := sla_breaches m |}.

(** The f-string of [generate_daily_report] over the first row. *)
Definition render_report (d : Date) (m : DailyMetrics) : pyresult string :=
  match avg_response_time m with
  | None =>
      (* a NULL average reaches Python as None, which has no ".2f" format *)
      Raise TypeError
  | Some avg =>
      Ok (join newline
        [ "";
          indent +:+ "Data Integrity Daily Report - " +:+ iso_date d;
          indent +:+ "=====================================";
          indent;
          indent +:+ "Transaction Summary:";
          indent +:+ "- Total Transactions: "
            +:+ format_thousands (total_transactions m);
          indent +:+ "- Average Response Time: " +:+ format_2f avg +:+ "s";
          indent +:+ "- Error Rate: " +:+ format_2f (error_rate m) +:+ "%";
          indent +:+ "- SLA Breaches: " +:+ format_thousands (sla_breaches m);
          indent;
          indent +:+ "Performance Against SLA:";
          indent +:+ "- Response Time SLA (4s): " +:+ sla_mark (Qle_bool avg 4);
          indent +:+ "- Error Rate SLA (1%): "
            +:+ sla_mark (Qle_bool (error_rate m) 1);
          indent;
          indent +:+ "Action Items:";
          indent +:+ generate_action_items (series_of m avg);
          indent ])
  end.

Definition generate_daily_report (store : list TransactionRow) (d : Date)
    : pyresult string :=
  match analyze_performance store d d with
  | [] => Ok no_data_message
  | m :: _ => render_report d m
  end.

(** ** A sample store *)

Definition row (id : string) (ts : option Timestamp) (seconds : option Q)
    (error : option string) : TransactionRow :=
  {| transaction_id := id; timestamp := ts;
     merchant_id := Some "M1"; amount := Some 10%Q; currency := Some "USD";
     card_type := Some "credit"; response_code := Some "00";
     processing_time := seconds; error_code := error; region := None |}.

Definition jan (d : nat) : Date := {| year := 2024; month := 1; day := d |}.

Definition at_time (d : Date) (seconds : Z) : option Timestamp :=
  Some {| ts_date := d; ts_seconds := seconds |}.

(** Two transactions on 15 January (at midnight and one second before the
    next midnight), one on 16 January without a processing time, one without
    a time stamp, one on 17 January. *)
Definition sample_store : list TransactionRow :=
  [ row "t1" (at_time (jan 15) 0) (Some 1.5%Q) None;
    row "t3" (at_time (jan 16) 43200) None None;
    row "t2" (at_time (jan 15) 86399) (Some 5%Q) (Some "E01");
    row "t4" None (Some 9%Q) None;
    row "t5" (at_time (jan 17) 60) (Some 2%Q) None ].

(** A row of metrics that are all zero. *)
Definition zero_metrics (d : Date) : DailyMetrics :=
  {| date := d; total_transactions := 0; avg_response_time := Some 0%Q;
     error_rate := 0%Q; sla_breaches := 0 |}.

(** ** Definitions for the further properties *)

(** The fields [validate_transaction] reads, and the codes it can report,
    in the order of the checks. *)
Definition validated_fields : list string :=
  ["merchant_id"; "amount"; "currency"; "card_type"; "processing_time"].

Definition all_error_codes : list string :=
  ["MISSING_MERCHANT_ID"; "MISSING_AMOUNT"; "MISSING_CURRENCY"; "MISSING_CARD_TYPE";
   "INVALID_AMOUNT"; "INVALID_CURRENCY"; "SLA_BREACH"].

(** The dashboard's summary: [metrics['sla_breaches'].sum()] (0 on no
    rows) and [metrics['error_rate'].mean()] (NaN on no rows), as the two
    paragraphs of [sla_summary] print them. The mean is that of the exact
    model: it is used for its bounds, not for its digits. *)
Definition column_sum (xs : list Z) : Z := fold_right Z.add 0%Z xs.

Definition column_mean (xs : list Q) : pyfloat :=
  match xs with
  | [] => FNaN
  | _ => FFin (Qsum xs / inject_Z (Z.of_nat (length xs)))
  end.

Definition format_float_2f (x : pyfloat) : string :=
  match x with
  | FNaN => "nan"
  | FInf false => "inf"
  | FInf true => "-inf"
  | FFin q => format_2f q
  end.

Definition summary_breaches (metrics : list DailyMetrics) : string :=
  "Total SLA Breaches: " +:+ str_int (column_sum (map sla_breaches metrics)).

Definition summary_error_rate (metrics : list DailyMetrics) : string :=
  "Average Error Rate: "
  +:+ format_float_2f (column_mean (map error_rate metrics)) +:+ "%".

(** A processing time above the threshold of the breach count. *)
Definition over_threshold (v : Q) : bool := negb (Qle_bool v 4).

(** A grouped number with its commas taken out. *)
Definition is_comma (c : ascii) : bool := Ascii.eqb c ","%char.

Definition remove_commas (s : string) : string :=
  string_of_list_ascii
    (List.filter (fun c => negb (is_comma c)) (list_ascii_of_string s)).

(** The action items as the report shows them: the indentation of the
    template precedes the first one only. *)
Definition indent_first_with (prefix : string) (items : list string) : list string :=
  match items with
  | [] => []
  | item :: rest => (prefix +:+ item) :: rest
  end.

Definition indent_first (items : list string) : list string :=
  indent_first_with indent items.

(** Two result rows with the same date, total, error rate and breach
    count. *)
Definition same_counts (m m' : DailyMetrics) : Prop :=
  date m = date m' /\
  total_transactions m = total_transactions m' /\
  error_rate m = error_rate m' /\
  sla_breaches m = sla_breaches m'.

(** ** Further sample inputs *)

(** Two slow transactions on 20 January. *)
Definition slow_store : list TransactionRow :=
  [ row "s1" (at_time (jan 20) 10) (Some 5%Q) None;
    row "s2" (at_time (jan 20) 20) (Some 6%Q) None ].

(** The sample store with its first two rows exchanged. *)
Definition sample_store_swapped : list TransactionRow :=
  [ row "t3" (at_time (jan 16) 43200) None None;
    row "t1" (at_time (jan 15) 0) (Some 1.5%Q) None;
    row "t2" (at_time (jan 15) 86399) (Some 5%Q) (Some "E01");
    row "t4" None (Some 9%Q) None;
    row "t5" (at_time (jan 17) 60) (Some 2%Q) None ].


Definition tx_nan_time : transaction :=
  tx_of (PyStr "M1") (PyInt 10) (PyStr "USD") (PyStr "credit") (PyFloat FNaN).

Definition tx_five_seconds : transaction :=
  tx_of (PyStr "M1") (PyInt 10) (PyStr "USD") (PyStr "credit") (PyFloat (FFin 5)).

(** ** The aggregation query in binary64 *)

(** A row of the [transactions] table as SQLite stores it: a REAL column
    holds NULL or a binary64 value, the infinities included (a NaN is
    stored as NULL). *)
Record StoredRow : Type := {
  stored_transaction_id : string;
  stored_timestamp : option Timestamp;
  stored_merchant_id : option string;
  stored_amount : option float;
  stored_currency : option string;
  stored_card_type : option string;
  stored_response_code : option string;
  stored_processing_time : option float;
  stored_error_code : option string;
  stored_region : option string
}.

(** A row of the query's result, with the REAL columns in binary64.
    [avg_response_time64] is [None] for the NULL of the query, which the
    data frame holds as [None], or as NaN beside numbers. *)
Record DailyMetrics64 : Type := {
  date64 : Date;
  total_transactions64 : Z;
  avg_response_time64 : option float;
  error_rate64 : float;
  sla_breaches64 : Z
}.

Definition in_range64 (start_date end_date : Date) (r : StoredRow) : bool :=
  match sql_DATE (stored_timestamp r) with
  | Some d => date_leb start_date d && date_leb d end_date
  | None => false
  end.

Definition on_date64 (d : Date) (r : StoredRow) : bool :=
  match sql_DATE (stored_timestamp r) with
  | Some d' => date_eqb d d'
  | None => false
  end.

Fixpoint group_dates64 (rows : list StoredRow) : list Date :=
  match rows with
  | [] => []
  | r :: rows' =>
      match sql_DATE (stored_timestamp r) with
      | Some d => insert_date d (group_dates64 rows')
      | None => group_dates64 rows'
      end
  end.

Definition sql_COUNT64 (rows : list StoredRow) : Z := Z.of_nat (length rows).

(** An integer operand of a REAL operation: the nearest binary64 value,
    ties to even. *)
Definition float_of_Z (z : Z) : float :=
  SF2Prim (binary_normalize prec emax z 0 false).

(** A REAL result that is NaN is returned as NULL. *)
Definition result_double (x : float) : option float :=
  if PrimFloat.is_nan x then None else Some x.

(** [CASE WHEN error_code IS NOT NULL THEN 1 ELSE 0 END] *)
Definition error_flag64 (r : StoredRow) : Z :=
  match stored_error_code r with
  | Some _ => 1
  | None => 0
  end.

(** [CASE WHEN processing_time > 4.0 THEN 1 ELSE 0 END] *)
Definition breach_flag64 (r : StoredRow) : Z :=
  match stored_processing_time r with
  | Some t => if PrimFloat.ltb 4 t then 1 else 0
  | None => 0
  end.





Section Query64.

(** The sum [AVG] accumulates over the REAL values of a group, given in
    the order of the rows in the table. It is the SQLite library's: a
    binary64 sum in the order the rows are visited, a plain running sum in
    some versions and a compensated one in others. *)
Variable real_sum : list float -> float.

(** [AVG]: NULL when no value is present, else the sum of the values
    present divided by their number, in binary64. *)
Definition sql_AVG64 (xs : list (option float)) : option float :=
  match non_null xs with
  | [] => None
  | vs => result_double (real_sum vs / float_of_Z (Z.of_nat (length vs)))
  end.

(** The SELECT list over one group; [SUM(...) * 100.0 / COUNT( * )] is a
    REAL product and a REAL quotient. *)
Definition aggregate64 (d : Date) (group : list StoredRow) : DailyMetrics64 :=
  {| date64 := d;
     total_transactions64 := sql_COUNT64 group;
     avg_response_time64 := sql_AVG64 (map stored_processing_time group);
     error_rate64 :=
       (float_of_Z (sql_SUM (map error_flag64 group)) * 100
        / float_of_Z (sql_COUNT64 group))%float;
     sla_breaches64 := sql_SUM (map breach_flag64 group) |}.

Definition analyze_performance64 (store : list StoredRow)
    (start_date end_date : Date) : list DailyMetrics64 :=
  let selected := List.filter (in_range64 start_date end_date) store in
  map (fun d => aggregate64 d (List.filter (on_date64 d) selected))
      (group_dates64 selected).



End Query64.

(** The plain running sum, from 0.0. *)
Definition running_sum (vs : list float) : float :=
  fold_left PrimFloat.add vs 0%float.

(** Three transactions on 15 January, one of them with an error code and
    one slow, one on 16 January without a processing time, one without a
    time stamp, one on 17 January. *)
Definition stored (id : string) (ts : option Timestamp) (seconds : option float)
    (error : option string) : StoredRow :=
  {| stored_transaction_id := id; stored_timestamp := ts;
     stored_merchant_id := Some "M1"; stored_amount := Some 10%float;
     stored_currency := Some "USD"; stored_card_type := Some "credit";
     stored_response_code := Some "00";
     stored_processing_time := seconds; stored_error_code := error;
     stored_region := None |}.

Definition sample_store64 : list StoredRow :=
  [ stored "t1" (at_time (jan 15) 0) (Some 1.5%float) None;
    stored "t3" (at_time (jan 16) 43200) None None;
    stored "t2" (at_time (jan 15) 86399) (Some 5%float) (Some "E01");
    stored "t4" None (Some 9%float) None;
    stored "t6" (at_time (jan 15) 30) (Some 2.5%float) None;
    stored "t5" (at_time (jan 17) 60) (Some 2%float) None ].

(** * Properties *)

(** ** Properties of the validator *)

Section ValidatorFacts.

Variable float_repr : Q -> string.

Lemma check_required_fields (tx : transaction) (acc : list string) :
  check_required tx required_fields acc =
  let! vm := getitem tx "merchant_id" in
  let! va := getitem tx "amount" in
  let! vc := getitem tx "currency" in
  let! vk := getitem tx "card_type" in
  Ok ((((acc ++ code_if (pd_isna vm) "MISSING_MERCHANT_ID")
          ++ code_if (pd_isna va) "MISSING_AMOUNT")
         ++ code_if (pd_isna vc) "MISSING_CURRENCY")
        ++ code_if (pd_isna vk) "MISSING_CARD_TYPE").
Proof.
  unfold required_fields, check_required.
  destruct (getitem tx "merchant_id") as [vm|]; [|reflexivity].
  destruct (getitem tx "amount") as [va|]; [|reflexivity].
  destruct (getitem tx "currency") as [vc|]; [|reflexivity].
  destruct (getitem tx "card_type") as [vk|]; [|reflexivity].
  cbn [bind]. unfold code_if.
  destruct (pd_isna vm), (pd_isna va), (pd_isna vc), (pd_isna vk);
    rewrite ?app_nil_r; reflexivity.
Qed.

(** On finite floats the two comparisons are those of the rationals. *)
Lemma float_le_finite a b : float_le (FFin a) (FFin b) = true <-> (a <= b)%Q.
Proof. cbn [float_le]. apply Qle_bool_iff. Qed.

Lemma float_lt_finite a b : float_lt (FFin a) (FFin b) = true <-> (a < b)%Q.
Proof.
  cbn [float_lt]. rewrite negb_true_iff, <- not_true_iff_false, Qle_bool_iff.
  split; [apply Qnot_le_lt|apply Qlt_not_le].
Qed.

Lemma float_lt_nan a : float_lt a FNaN = false.
Proof. destruct a as [|[]|]; reflexivity. Qed.

Lemma append_code_if (b : bool) (codes : list string) code :
  (if b then codes ++ [code] else codes) = codes ++ code_if b code.
Proof. destruct b; cbn [code_if]; [reflexivity|]. rewrite app_nil_r. reflexivity. Qed.

Lemma getitem_Some (tx : transaction) key v :
  tx !! key = Some v -> getitem tx key = Ok v.
Proof. unfold getitem. intros ->. reflexivity. Qed.

Lemma getitem_Ok (tx : transaction) key v :
  getitem tx key = Ok v -> tx !! key = Some v.
Proof. unfold getitem. destruct (tx !! key); congruence. Qed.

Lemma py_le_Ok v c b : py_le v c = Ok b ->
  exists a, as_number v = Some a /\ b = float_le a (FFin c).
Proof. unfold py_le. destruct (as_number v); intros H; inversion H; eauto. Qed.

Lemma py_gt_Ok v c b : py_gt v c = Ok b ->
  exists a, as_number v = Some a /\ b = float_lt (FFin c) a.
Proof. unfold py_gt. destruct (as_number v); intros H; inversion H; eauto. Qed.

(** On a transaction with the five fields and a numeric amount and
    processing time, the validator returns the list of section 4.1. *)
Lemma validate_transaction_eq tx vm va vc vk vp a p :
  has_fields tx vm va vc vk vp ->
  as_number va = Some a -> as_number vp = Some p ->
  validate_transaction float_repr tx =
  Ok ((length (spec_error_codes float_repr vm va vc vk a p) =? 0)%nat,
      spec_error_codes float_repr vm va vc vk a p).
Proof.
  intros [Hm Ha Hc Hk Hp] Hna Hnp.
  unfold validate_transaction. rewrite check_required_fields.
  rewrite !(getitem_Some _ _ _ Hm), !(getitem_Some _ _ _ Ha),
    !(getitem_Some _ _ _ Hc), !(getitem_Some _ _ _ Hk), !(getitem_Some _ _ _ Hp).
  cbn [bind]. unfold py_le. rewrite Hna. cbn [bind].
  unfold py_gt. rewrite Hnp. cbn [bind].
  rewrite !append_code_if. unfold spec_error_codes.
  rewrite <- !app_assoc. reflexivity.
Qed.

(** Conversely the validator returns only on such a transaction. *)
Lemma validate_transaction_inv tx r :
  validate_transaction float_repr tx = Ok r ->
  exists vm va vc vk vp a p,
    has_fields tx vm va vc vk vp /\
    as_number va = Some a /\ as_number vp = Some p.
Proof.
  unfold validate_transaction. rewrite check_required_fields.
  destruct (getitem tx "merchant_id") as [vm|] eqn:Hm; [|discriminate].
  destruct (getitem tx "amount") as [va|] eqn:Ha; [|discriminate].
  destruct (getitem tx "currency") as [vc|] eqn:Hc; [|discriminate].
  destruct (getitem tx "card_type") as [vk|] eqn:Hk; [|discriminate].
  cbn [bind].
  destruct (py_le va 0) as [ba|] eqn:Hle; [|discriminate].
  destruct (getitem tx "processing_time") as [vp|] eqn:Hp; [|discriminate].
  cbn [bind].
  destruct (py_gt vp 4) as [bp|] eqn:Hgt; [|discriminate].
  intros _.
  apply py_le_Ok in Hle as (a & Hna & _). apply py_gt_Ok in Hgt as (p & Hnp & _).
  exists vm, va, vc, vk, vp, a, p.
  split; [|split; assumption].
  constructor; apply getitem_Ok; assumption.
Qed.

Lemma validate_transaction_Ok tx valid codes :
  validate_transaction float_repr tx = Ok (valid, codes) ->
  exists vm va vc vk vp a p,
    has_fields tx vm va vc vk vp /\
    as_number va = Some a /\ as_number vp = Some p /\
    codes = spec_error_codes float_repr vm va vc vk a p /\
    valid = (length codes =? 0)%nat.
Proof.
  intros H.
  destruct (validate_transaction_inv _ _ H) as (vm & va & vc & vk & vp & a & p & Hf & Ha & Hp).
  rewrite (validate_transaction_eq _ _ _ _ _ _ _ _ Hf Ha Hp) in H.
  inversion H; subst. exists vm, va, vc, vk, vp, a, p. auto.
Qed.

Lemma in_code_if code b c : In code (code_if b c) <-> code = c /\ b = true.
Proof.
  destruct b; cbn [code_if In]; intuition (try discriminate; auto).
Qed.

(** Which codes the list of section 4.1 holds. *)
Lemma in_spec_error_codes code vm va vc vk a p :
  In code (spec_error_codes float_repr vm va vc vk a p) <->
  (code = "MISSING_MERCHANT_ID" /\ pd_isna vm = true) \/
  (code = "MISSING_AMOUNT" /\ pd_isna va = true) \/
  (code = "MISSING_CURRENCY" /\ pd_isna vc = true) \/
  (code = "MISSING_CARD_TYPE" /\ pd_isna vk = true) \/
  (code = "INVALID_AMOUNT" /\ float_le a (FFin 0) = true) \/
  (code = "INVALID_CURRENCY" /\ (String.length (py_str float_repr vc) =? 3)%nat = false) \/
  (code = "SLA_BREACH" /\ float_lt (FFin 4) p = true).
Proof.
  unfold spec_error_codes.
  rewrite !in_app_iff, !in_code_if, negb_true_iff. tauto.
Qed.

Lemma Ok_false_of_in (codes : list string) code :
  In code codes -> (length codes =? 0)%nat = false.
Proof. destruct codes; [intros []|reflexivity]. Qed.

Lemma has_fields_tx_of vm va vc vk vp :
  has_fields (tx_of vm va vc vk vp) vm va vc vk vp.
Proof. constructor; reflexivity. Qed.

(** C9. Whenever [validate_transaction] returns, its flag is true exactly
    when its list of error codes is empty. *)
Theorem validate_valid_iff_no_errors tx valid codes :
  validate_transaction float_repr tx = Ok (valid, codes) ->
  valid = true <-> codes = [].
Proof.
  intros H.
  apply validate_transaction_Ok in H
    as (vm & va & vc & vk & vp & a & p & _ & _ & _ & _ & ->).
  destruct codes; cbn [length Nat.eqb]; split; intros E;
    first [reflexivity | discriminate E].
Qed.




(** C10. A currency that is [None] is reported both as MISSING_CURRENCY and
    as INVALID_CURRENCY ([str(None)] has four characters); a currency that is
    NaN is reported as MISSING_CURRENCY only ([str(nan)] has three). *)
Theorem missing_currency_by_null_kind :
  (forall tx vm va vk vp a p,
      has_fields tx vm va PyNone vk vp ->
      as_number va = Some a -> as_number vp = Some p ->
      exists codes,
        validate_transaction float_repr tx = Ok (false, codes) /\
        In "MISSING_CURRENCY" codes /\ In "INVALID_CURRENCY" codes) /\
  (forall tx vm va vk vp a p,
      has_fields tx vm va (PyFloat FNaN) vk vp ->
      as_number va = Some a -> as_number vp = Some p ->
      exists codes,
        validate_transaction float_repr tx = Ok (false, codes) /\
        In "MISSING_CURRENCY" codes /\ ~ In "INVALID_CURRENCY" codes) /\
  py_str float_repr PyNone = "None" /\
  py_str float_repr (PyFloat FNaN) = "nan" /\
  validate_transaction float_repr tx_none_currency =
    Ok (false, ["MISSING_CURRENCY"; "INVALID_CURRENCY"]) /\
  validate_transaction float_repr tx_nan_currency =
    Ok (false, ["MISSING_CURRENCY"]).
Proof.
  split; [|split; [|split; [|split; [|split]]]]; try (vm_compute; reflexivity).
  - intros tx vm va vk vp a p Hf Ha Hp.
    rewrite (validate_transaction_eq _ _ _ _ _ _ _ _ Hf Ha Hp).
    assert (In "MISSING_CURRENCY" (spec_error_codes float_repr vm va PyNone vk a p))
      as Hin by (apply in_spec_error_codes; right; right; left; split; reflexivity).
    rewrite (Ok_false_of_in _ _ Hin).
    eexists. split; [reflexivity|]. split; [exact Hin|].
    apply in_spec_error_codes. do 5 right. left. split; reflexivity.
  - intros tx vm va vk vp a p Hf Ha Hp.
    rewrite (validate_transaction_eq _ _ _ _ _ _ _ _ Hf Ha Hp).
    assert (In "MISSING_CURRENCY"
              (spec_error_codes float_repr vm va (PyFloat FNaN) vk a p))
      as Hin by (apply in_spec_error_codes; right; right; left; split; reflexivity).
    rewrite (Ok_false_of_in _ _ Hin).
    eexists. split; [reflexivity|]. split; [exact Hin|].
    rewrite in_spec_error_codes. cbn [py_str String.length Nat.eqb].
    intuition discriminate.
Qed.

End ValidatorFacts.




(** ** Properties of the aggregation query *)

Lemma date_ltb_correct a b :
  date_ltb a b = true <->
  (year a < year b \/
   (year a = year b /\
    (month a < month b \/ (month a = month b /\ day a < day b))))%nat.
Proof.
  unfold date_ltb.
  rewrite !orb_true_iff, !andb_true_iff, !orb_true_iff, !andb_true_iff,
    !Nat.ltb_lt, !Nat.eqb_eq.
  tauto.
Qed.

Lemma date_eqb_correct a b : date_eqb a b = true <-> a = b.
Proof.
  unfold date_eqb. rewrite !andb_true_iff, !Nat.eqb_eq.
  destruct a, b; cbn; split.
  - intros [[-> ->] ->]. reflexivity.
  - intros H; inversion H; auto.
Qed.

Lemma date_ltb_false a b :
  date_ltb a b = false -> date_eqb a b = false -> date_lt b a.
Proof.
  intros Hlt Heq. unfold date_lt. apply date_ltb_correct.
  apply not_true_iff_false in Hlt, Heq.
  rewrite date_ltb_correct in Hlt. rewrite date_eqb_correct in Heq.
  destruct a as [ya ma da], b as [yb mb db]; cbn in *.
  assert (ya <> yb \/ ma <> mb \/ da <> db)%nat as Hne.
  { destruct (Nat.eq_dec ya yb) as [->|]; [|auto].
    destruct (Nat.eq_dec ma mb) as [->|]; [|auto].
    destruct (Nat.eq_dec da db) as [->|]; [|auto].
    exfalso; apply Heq; reflexivity. }
  lia.
Qed.

Lemma date_lt_trans a b c : date_lt a b -> date_lt b c -> date_lt a c.
Proof. unfold date_lt. rewrite !date_ltb_correct. lia. Qed.

Lemma date_lt_irrefl a : ~ date_lt a a.
Proof. unfold date_lt. rewrite date_ltb_correct. lia. Qed.

Lemma insert_date_In x d ds : In x (insert_date d ds) <-> x = d \/ In x ds.
Proof.
  induction ds as [|y ds IH]; cbn [insert_date].
  - cbn. intuition.
  - destruct (date_ltb d y) eqn:Hlt; [cbn; intuition|].
    destruct (date_eqb d y) eqn:Heq.
    + apply date_eqb_correct in Heq as ->. cbn. intuition.
    + cbn [In]. rewrite IH. intuition.
Qed.

Lemma insert_date_sorted d ds :
  StronglySorted date_lt ds -> StronglySorted date_lt (insert_date d ds).
Proof.
  induction 1 as [|y ds Hs IH Hall]; cbn [insert_date].
  - repeat constructor.
  - destruct (date_ltb d y) eqn:Hlt.
    + constructor; [constructor; assumption|].
      constructor; [exact Hlt|].
      eapply Forall_impl; [exact Hall|].
      intros z Hz. exact (date_lt_trans _ _ _ Hlt Hz).
    + destruct (date_eqb d y) eqn:Heq; [constructor; assumption|].
      constructor; [exact IH|].
      apply List.Forall_forall. intros z Hz. apply insert_date_In in Hz as [->|Hz].
      * apply date_ltb_false; assumption.
      * rewrite List.Forall_forall in Hall. auto.
Qed.

Lemma group_dates_In d rows :
  In d (group_dates rows) <->
  exists r, In r rows /\ sql_DATE (timestamp r) = Some d.
Proof.
  induction rows as [|r rows IH]; cbn [group_dates].
  - split; [intros []|intros (r & [] & _)].
  - destruct (sql_DATE (timestamp r)) as [d'|] eqn:Hd.
    + rewrite insert_date_In, IH. split.
      * intros [->|(r' & Hin & Hr')]; [exists r|exists r']; cbn; auto.
      * intros (r' & [<-|Hin] & Hr'); [left; congruence|right; eauto].
    + rewrite IH. split.
      * intros (r' & Hin & Hr'). exists r'. cbn; auto.
      * intros (r' & [<-|Hin] & Hr'); [congruence|eauto].
Qed.

Lemma group_dates_sorted rows : StronglySorted date_lt (group_dates rows).
Proof.
  induction rows as [|r rows IH]; cbn [group_dates]; [constructor|].
  destruct (sql_DATE (timestamp r)); [apply insert_date_sorted|]; exact IH.
Qed.

Lemma on_date_correct d r :
  on_date d r = true <-> sql_DATE (timestamp r) = Some d.
Proof.
  unfold on_date. destruct (sql_DATE (timestamp r)) as [d'|].
  - rewrite date_eqb_correct. split; congruence.
  - split; discriminate.
Qed.

Lemma in_range_correct s e r :
  in_range s e r = true <->
  exists d, sql_DATE (timestamp r) = Some d /\ date_le s d /\ date_le d e.
Proof.
  unfold in_range, date_le. destruct (sql_DATE (timestamp r)) as [d|].
  - rewrite andb_true_iff. split.
    + intros [? ?]. exists d. auto.
    + intros (d' & [= <-] & ? & ?). auto.
  - split; [discriminate|intros (d & [=] & _)].
Qed.

(** Within the range, the group of a date is the whole day of the store. *)
Lemma group_is_whole_day store s e d :
  date_le s d -> date_le d e ->
  List.filter (on_date d) (List.filter (in_range s e) store) =
  transactions_on store d.
Proof.
  intros Hs He. unfold transactions_on.
  induction store as [|r store IH]; [reflexivity|].
  cbn [List.filter].
  destruct (on_date d r) eqn:Hon.
  - assert (in_range s e r = true) as ->.
    { apply in_range_correct. exists d. split; [|auto].
      apply on_date_correct. exact Hon. }
    cbn [List.filter]. rewrite Hon, IH. reflexivity.
  - destruct (in_range s e r); [cbn [List.filter]; rewrite Hon|]; exact IH.
Qed.

Lemma transactions_on_nonempty store d :
  transactions_on store d <> [] <->
  exists r, In r store /\ sql_DATE (timestamp r) = Some d.
Proof.
  unfold transactions_on. split.
  - destruct (List.filter (on_date d) store) as [|r l] eqn:Hf; [congruence|].
    intros _. assert (In r (List.filter (on_date d) store)) as Hin
      by (rewrite Hf; left; reflexivity).
    apply filter_In in Hin as [Hin Hon]. exists r. split; [exact Hin|].
    apply on_date_correct. exact Hon.
  - intros (r & Hin & Hd) Hnil.
    assert (In r (List.filter (on_date d) store)) as Hin'.
    { apply filter_In. split; [exact Hin|]. apply on_date_correct. exact Hd. }
    rewrite Hnil in Hin'. destruct Hin'.
Qed.

Lemma sql_SUM_flags (flag : TransactionRow -> Z) (f : TransactionRow -> bool) rows :
  (forall r, flag r = if f r then 1%Z else 0%Z) ->
  sql_SUM (map flag rows) = count f rows.
Proof.
  intros Hflag. unfold sql_SUM, count.
  induction rows as [|r rows IH]; [reflexivity|].
  cbn [map fold_right List.filter]. rewrite IH, Hflag.
  destruct (f r); cbn [length]; lia.
Qed.

Lemma error_flag_has_error r : error_flag r = if has_error r then 1%Z else 0%Z.
Proof. unfold error_flag, has_error. destruct (error_code r); reflexivity. Qed.

Lemma breach_flag_is_breach r : breach_flag r = if is_breach r then 1%Z else 0%Z.
Proof.
  unfold breach_flag, is_breach. destruct (processing_time r) as [t|]; [|reflexivity].
  destruct (Qle_bool t 4); reflexivity.
Qed.

Lemma Qmult_inject_Z_100 k : (inject_Z k * 100)%Q = (100 * inject_Z k)%Q.
Proof. unfold Qmult, inject_Z. cbn [Qnum Qden]. f_equal. lia. Qed.

(** The SELECT list over the rows of one day computes the aggregates of
    section 4.2. *)
Lemma aggregate_spec store d :
  aggregate d (transactions_on store d) = spec_metrics store d.
Proof.
  unfold aggregate, spec_metrics, sql_COUNT.
  rewrite (sql_SUM_flags _ _ _ error_flag_has_error),
    (sql_SUM_flags _ _ _ breach_flag_is_breach), Qmult_inject_Z_100.
  f_equal. unfold sql_AVG, mean.
  destruct (non_null (map processing_time (transactions_on store d))); reflexivity.
Qed.

Lemma dates_of_result store s e :
  map date (analyze_performance store s e) =
  group_dates (List.filter (in_range s e) store).
Proof.
  unfold analyze_performance. rewrite map_map. cbn [date aggregate].
  apply map_id.
Qed.

Lemma selected_dates_In store s e d :
  In d (group_dates (List.filter (in_range s e) store)) <->
  date_le s d /\ date_le d e /\ transactions_on store d <> [].
Proof.
  rewrite group_dates_In, transactions_on_nonempty. split.
  - intros (r & Hin & Hd). apply filter_In in Hin as [Hin Hr].
    apply in_range_correct in Hr as (d' & Hd' & Hs & He).
    assert (d' = d) as -> by congruence. eauto.
  - intros (Hs & He & r & Hin & Hd). exists r. split; [|exact Hd].
    apply filter_In. split; [exact Hin|].
    apply in_range_correct. eauto.
Qed.

Lemma result_entry store s e m :
  In m (analyze_performance store s e) ->
  m = spec_metrics store (date m) /\
  date_le s (date m) /\ date_le (date m) e /\
  transactions_on store (date m) <> [].
Proof.
  intros Hin.
  assert (In (date m) (map date (analyze_performance store s e))) as Hd
    by (apply in_map; exact Hin).
  rewrite dates_of_result, selected_dates_In in Hd.
  destruct Hd as (Hs & He & Hne).
  unfold analyze_performance in Hin. apply in_map_iff in Hin as (d & <- & _).
  cbn [date aggregate] in *.
  rewrite (group_is_whole_day _ _ _ _ Hs He), aggregate_spec. auto.
Qed.

Lemma StronglySorted_NoDup (l : list Date) :
  StronglySorted date_lt l -> List.NoDup l.
Proof.
  induction 1 as [|d l Hs IH Hall]; constructor; [|exact IH].
  intros Hin. rewrite List.Forall_forall in Hall.
  exact (date_lt_irrefl d (Hall d Hin)).
Qed.

Lemma count_le_length f rows : (0 <= count f rows <= Z.of_nat (length rows))%Z.
Proof.
  unfold count. split; [lia|].
  apply inj_le. induction rows as [|r rows IH]; [reflexivity|].
  cbn [List.filter]. destruct (f r); cbn [length]; lia.
Qed.

Lemma percentage_bounds k n :
  (0 <= k <= n)%Z -> (1 <= n)%Z ->
  (0 <= 100 * inject_Z k / inject_Z n /\ 100 * inject_Z k / inject_Z n <= 100)%Q.
Proof.
  intros Hk Hn.
  assert (0 < inject_Z n)%Q as Hpos.
  { change 0%Q with (inject_Z 0). rewrite <- Zlt_Qlt. lia. }
  change 100%Q with (inject_Z 100). rewrite <- inject_Z_mult. split.
  - apply Qle_shift_div_l; [exact Hpos|].
    change 0%Q with (inject_Z 0). rewrite <- inject_Z_mult, <- Zle_Qle. lia.
  - apply Qle_shift_div_r; [exact Hpos|].
    rewrite <- inject_Z_mult, <- Zle_Qle. lia.
Qed.

(** C5. Every entry of the result has an error rate between 0 and 100, a
    breach count between 0 and its number of transactions, and at least
    one transaction. *)
Theorem metrics_bounds store start_date end_date m :
  In m (analyze_performance store start_date end_date) ->
  (0 <= error_rate m /\ error_rate m <= 100)%Q /\
  (0 <= sla_breaches m <= total_transactions m)%Z /\
  (1 <= total_transactions m)%Z.
Proof.
  intros Hin. apply result_entry in Hin as (Heq & _ & _ & Hne).
  remember (date m) as d eqn:Hd. rewrite Heq. clear Heq Hd.
  cbn [error_rate sla_breaches total_transactions spec_metrics].
  assert (1 <= Z.of_nat (length (transactions_on store d)))%Z as Hlen.
  { destruct (transactions_on store d); [congruence|cbn [length]; lia]. }
  split; [|split; [apply count_le_length|exact Hlen]].
  apply percentage_bounds; [apply count_le_length|exact Hlen].
Qed.

(** ** The aggregation query in binary64 *)












Section Query64Facts.

Variable real_sum : list float -> float.






End Query64Facts.

(** The query on the sample store, with the plain running sum: one
    transaction in three has an error code on 15 January, and the quotient
    of 100.0 by 3 in binary64 is 33.333333333333336. *)
Lemma analyze_performance64_sample :
  analyze_performance64 running_sum sample_store64 (jan 15) (jan 16) =
  [ {| date64 := jan 15; total_transactions64 := 3;
       avg_response_time64 := Some 3%float;
       error_rate64 := 0x1.0aaaaaaaaaaabp+5%float; sla_breaches64 := 1 |};
    {| date64 := jan 16; total_transactions64 := 1;
       avg_response_time64 := None;
       error_rate64 := 0%float; sla_breaches64 := 0 |} ].
Proof. vm_compute. reflexivity. Qed.

(** ** Properties of the SLA evaluator *)

Lemma append_cons c s t : String c s +:+ t = String c (s +:+ t).
Proof. reflexivity. Qed.

Lemma has_newline_app s t :
  has_newline (s +:+ t) = has_newline s || has_newline t.
Proof.
  induction s as [|c s IH]; [reflexivity|].
  rewrite append_cons. cbn [has_newline]. rewrite IH, orb_assoc. reflexivity.
Qed.

Lemma split_lines_one_line s : has_newline s = false -> split_lines s = [s].
Proof.
  induction s as [|c s IH]; [reflexivity|].
  cbn [has_newline split_lines]. intros H.
  apply orb_false_iff in H as [-> Hs]. rewrite (IH Hs). reflexivity.
Qed.

Lemma split_lines_cons s t :
  has_newline s = false ->
  split_lines (s +:+ newline +:+ t) = s :: split_lines t.
Proof.
  induction s as [|c s IH]; [reflexivity|].
  rewrite append_cons. cbn [has_newline split_lines]. intros H.
  apply orb_false_iff in H as [-> Hs]. rewrite (IH Hs). reflexivity.
Qed.

(** Splitting the joined items gives the items back. *)
Lemma split_lines_join items :
  List.Forall (fun item => has_newline item = false) items -> items <> [] ->
  split_lines (join newline items) = items.
Proof.
  induction 1 as [|x rest Hx Hrest IH]; [congruence|]. intros _.
  destruct rest as [|y rest].
  - apply split_lines_one_line. exact Hx.
  - change (join newline (x :: y :: rest))
      with (x +:+ newline +:+ join newline (y :: rest)).
    rewrite (split_lines_cons _ _ Hx), IH; [reflexivity|discriminate].
Qed.

Lemma has_newline_uint d : has_newline (NilEmpty.string_of_uint d) = false.
Proof. induction d; cbn [NilEmpty.string_of_uint has_newline]; auto. Qed.

Lemma has_newline_str_int z : has_newline (str_int z) = false.
Proof.
  unfold str_int, NilZero.string_of_int, NilZero.string_of_uint.
  destruct (Z.to_int z) as [d|d]; destruct d;
    cbn [has_newline Ascii.eqb Bool.eqb orb];
    try reflexivity; apply (has_newline_uint _).
Qed.

Lemma has_newline_review_item n : has_newline (review_item n) = false.
Proof.
  unfold review_item. rewrite !has_newline_app, has_newline_str_int. reflexivity.
Qed.

Lemma actions_of_spec metrics :
  actions_of metrics =
  code_if (float_lt (FFin 4) (s_avg_response_time metrics)) urgent_item
  ++ code_if (float_lt (FFin 1) (s_error_rate metrics)) error_item
  ++ code_if (0 <? s_sla_breaches metrics)%Z (review_item (s_sla_breaches metrics)).
Proof.
  unfold actions_of, code_if.
  destruct (float_lt (FFin 4) _), (float_lt (FFin 1) _), (0 <? _)%Z; reflexivity.
Qed.

Lemma actions_of_one_line metrics :
  List.Forall (fun item => has_newline item = false) (actions_of metrics).
Proof.
  rewrite actions_of_spec. unfold code_if.
  destruct (float_lt (FFin 4) _), (float_lt (FFin 1) _), (0 <? _)%Z;
    cbn [app]; repeat constructor; apply has_newline_review_item.
Qed.

Lemma generate_action_items_lines metrics :
  split_lines (generate_action_items metrics) = spec_action_items metrics.
Proof.
  unfold generate_action_items, spec_action_items.
  rewrite <- actions_of_spec.
  pose proof (actions_of_one_line metrics) as Hone.
  destruct (actions_of metrics) as [|x rest] eqn:Hact; [reflexivity|].
  apply split_lines_join; [exact Hone|discriminate].
Qed.

Lemma generate_action_items_join metrics :
  generate_action_items metrics = join newline (spec_action_items metrics).
Proof.
  unfold generate_action_items, spec_action_items.
  rewrite <- actions_of_spec.
  destruct (actions_of metrics); reflexivity.
Qed.

Lemma review_item_neq n :
  urgent_item <> review_item n /\ error_item <> review_item n /\
  no_action_item <> review_item n.
Proof.
  unfold review_item, urgent_item, error_item, no_action_item.
  rewrite !append_cons. repeat split; discriminate.
Qed.

Lemma fixed_items_neq :
  urgent_item <> error_item /\ urgent_item <> no_action_item /\
  error_item <> no_action_item.
Proof. repeat split; discriminate. Qed.

(** C6. The lines of the evaluator's text are the items of section 4.3:
    the urgent item exactly when the average exceeds 4, the error-pattern
    item exactly when the error rate exceeds 1, the item naming the breach
    count exactly when the count is positive, in this order, and the single
    no-action item exactly when none of the three applies; the scenario
    yields the error-pattern item followed by the item for 3 breaches. *)
Theorem action_items_spec (metrics : Series) :
  generate_action_items metrics = join newline (spec_action_items metrics) /\
  split_lines (generate_action_items metrics) = spec_action_items metrics /\
  (In urgent_item (split_lines (generate_action_items metrics)) <->
   float_lt (FFin 4) (s_avg_response_time metrics) = true) /\
  (In error_item (split_lines (generate_action_items metrics)) <->
   float_lt (FFin 1) (s_error_rate metrics) = true) /\
  (In (review_item (s_sla_breaches metrics))
      (split_lines (generate_action_items metrics)) <->
   (0 < s_sla_breaches metrics)%Z) /\
  (float_lt (FFin 4) (s_avg_response_time metrics) = false ->
   float_lt (FFin 1) (s_error_rate metrics) = false ->
   (s_sla_breaches metrics <= 0)%Z ->
   split_lines (generate_action_items metrics) = [no_action_item]) /\
  (In no_action_item (split_lines (generate_action_items metrics)) ->
   split_lines (generate_action_items metrics) = [no_action_item]) /\
  split_lines (generate_action_items metrics_scenario) =
    [error_item; review_item 3] /\
  generate_action_items metrics_scenario =
    "- Analyze error patterns and implement corrective measures"
    +:+ newline +:+ "- Review 3 transactions exceeding response time SLA".
Proof.
  split; [apply generate_action_items_join|].
  rewrite generate_action_items_lines.
  destruct (review_item_neq (s_sla_breaches metrics)) as (Hur & Her & Hnr).
  destruct fixed_items_neq as (Hue & Hun & Hen).
  unfold spec_action_items, code_if.
  rewrite <- Z.ltb_lt, <- Z.ltb_ge.
  destruct (float_lt (FFin 4) (s_avg_response_time metrics)),
    (float_lt (FFin 1) (s_error_rate metrics)),
    (0 <? s_sla_breaches metrics)%Z; cbn [app In];
    (split; [reflexivity|]);
    repeat (split; [intuition (try discriminate; try congruence)|]);
    split; vm_compute; reflexivity.
Qed.

(** ** Properties of the daily report *)

Lemma date_le_refl d : date_le d d.
Proof.
  unfold date_le, date_leb. apply negb_true_iff, not_true_iff_false.
  apply date_lt_irrefl.
Qed.

Lemma date_le_antisym a b : date_le a b -> date_le b a -> a = b.
Proof.
  unfold date_le, date_leb. rewrite !negb_true_iff. intros Hba Hab.
  destruct (date_eqb a b) eqn:Heq; [apply date_eqb_correct; exact Heq|].
  pose proof (date_ltb_false _ _ Hab Heq) as Hlt.
  unfold date_lt in Hlt. congruence.
Qed.

(** A query over a single date yields at most the row of that date. *)
Lemma analyze_single_date store d :
  analyze_performance store d d =
  match transactions_on store d with
  | [] => []
  | _ :: _ => [spec_metrics store d]
  end.
Proof.
  assert (List.NoDup (map date (analyze_performance store d d))) as Hnd.
  { rewrite dates_of_result. apply StronglySorted_NoDup, group_dates_sorted. }
  assert (forall d', In d' (map date (analyze_performance store d d)) <->
            date_le d d' /\ date_le d' d /\ transactions_on store d' <> []) as Hin.
  { intros d'. rewrite dates_of_result. apply selected_dates_In. }
  assert (forall m, In m (analyze_performance store d d) -> m = spec_metrics store d)
    as Hall.
  { intros m Hmin. apply result_entry in Hmin as (Hm & Hs & He & _).
    rewrite Hm. f_equal. symmetry. apply date_le_antisym; assumption. }
  specialize (Hin d).
  destruct (analyze_performance store d d) as [|m1 [|m2 rest]] eqn:Hres.
  - destruct (transactions_on store d); [reflexivity|].
    exfalso. cbn in Hin. apply Hin.
    split; [apply date_le_refl|]. split; [apply date_le_refl|discriminate].
  - assert (transactions_on store d <> []) as Hne.
    { apply Hin. rewrite (Hall m1) by (left; reflexivity). left. reflexivity. }
    rewrite (Hall m1) by (left; reflexivity).
    destruct (transactions_on store d); [congruence|reflexivity].
  - exfalso. cbn [map] in Hnd.
    rewrite (Hall m1), (Hall m2) in Hnd by (cbn; auto).
    inversion Hnd as [|? ? Hnotin _]. apply Hnotin. left. reflexivity.
Qed.

Lemma render_report_not_no_data d m text :
  render_report d m = Ok text -> text <> no_data_message.
Proof.
  unfold render_report. destruct (avg_response_time m); [|discriminate].
  intros [= <-]. discriminate.
Qed.

(** C7. For a date without transactions in the store the report is the
    fixed no-data message; the text rendered from a row of metrics, all-zero
    metrics included, is never that message, so a date with transactions
    never reports it. *)
Theorem no_data_report :
  (forall store d,
      transactions_on store d = [] ->
      analyze_performance store d d = [] /\
      generate_daily_report store d = Ok no_data_message) /\
  (forall d m text, render_report d m = Ok text -> text <> no_data_message) /\
  (forall d, exists text,
      render_report d (zero_metrics d) = Ok text /\ text <> no_data_message) /\
  (forall store d,
      transactions_on store d <> [] ->
      generate_daily_report store d <> Ok no_data_message) /\
  generate_daily_report sample_store (jan 14) =
    Ok "No data available for specified date".
Proof.
  split; [|split; [|split; [|split]]].
  - intros store d Hnone. unfold generate_daily_report.
    rewrite analyze_single_date, Hnone. split; reflexivity.
  - apply render_report_not_no_data.
  - intros d. eexists. split; [reflexivity|discriminate].
  - intros store d Hsome. unfold generate_daily_report.
    rewrite analyze_single_date.
    destruct (transactions_on store d); [congruence|].
    intros H. exact (render_report_not_no_data _ _ _ H eq_refl).
  - vm_compute. reflexivity.
Qed.

(** C8, as the code has it. [generate_daily_report] takes the date only: it
    runs the aggregation query on the store for that date and formats the
    row it gets, so its text is determined by the date and that date's
    transactions, and by nothing else of the store. *)
Theorem report_formats_queried_metrics :
  (forall store d,
      transactions_on store d <> [] ->
      analyze_performance store d d = [spec_metrics store d] /\
      generate_daily_report store d = render_report d (spec_metrics store d)) /\
  (forall store1 store2 d,
      transactions_on store1 d = transactions_on store2 d ->
      generate_daily_report store1 d = generate_daily_report store2 d).
Proof.
  split.
  - intros store d Hsome. unfold generate_daily_report.
    rewrite analyze_single_date.
    destruct (transactions_on store d); [congruence|]. split; reflexivity.
  - intros store1 store2 d Heq. unfold generate_daily_report.
    rewrite !analyze_single_date. unfold spec_metrics. rewrite Heq. reflexivity.
Qed.

(** Against C8 as stated: the same date gives the no-data message on the
    empty store and a rendered report on the sample store, so the text
    depends on the store. *)
Lemma report_depends_on_store :
  generate_daily_report [] (jan 15) = Ok no_data_message /\
  generate_daily_report sample_store (jan 15) =
  Ok (join newline
        [ "";
          "        Data Integrity Daily Report - 2024-01-15";
          "        =====================================";
          "        ";
          "        Transaction Summary:";
          "        - Total Transactions: 2";
          "        - Average Response Time: 3.25s";
          "        - Error Rate: 50.00%";
          "        - SLA Breaches: 1";
          "        ";
          "        Performance Against SLA:";
          "        - Response Time SLA (4s): ✓ Met";
          "        - Error Rate SLA (1%): ✗ Not Met";
          "        ";
          "        Action Items:";
          "        - Analyze error patterns and implement corrective measures";
          "- Review 1 transactions exceeding response time SLA";
          "        " ]) /\
  generate_daily_report [] (jan 15) <> generate_daily_report sample_store (jan 15).
Proof.
  split; [reflexivity|]. split; [vm_compute; reflexivity|].
  vm_compute. discriminate.
Qed.

(** ** The theorems at concrete inputs *)

Lemma validate_valid_iff_no_errors_witness :
  (forall float_repr, validate_transaction float_repr tx_clean = Ok (true, [])) /\
  (forall float_repr : Q -> string, true = true <-> @nil string = []).
Proof.
  split.
  - intros r. vm_compute. reflexivity.
  - intros r. apply (validate_valid_iff_no_errors r tx_clean true []).
    vm_compute. reflexivity.
Defined.


Lemma metrics_bounds_witness :
  In (spec_metrics sample_store (jan 15))
     (analyze_performance sample_store (jan 15) (jan 16)) /\
  ((0 <= error_rate (spec_metrics sample_store (jan 15)) /\
    error_rate (spec_metrics sample_store (jan 15)) <= 100)%Q /\
   (0 <= sla_breaches (spec_metrics sample_store (jan 15))
      <= total_transactions (spec_metrics sample_store (jan 15)))%Z /\
   (1 <= total_transactions (spec_metrics sample_store (jan 15)))%Z).
Proof.
  split.
  - vm_compute. left. reflexivity.
  - apply (metrics_bounds sample_store (jan 15) (jan 16)).
    vm_compute. left. reflexivity.
Defined.

(** The query on the sample store: two days in order, the day of 17
    January and the row without a time stamp left out, both transactions of
    15 January counted whatever their time of day. *)
Example analyze_sample_store :
  map date (analyze_performance sample_store (jan 15) (jan 16)) = [jan 15; jan 16] /\
  map total_transactions (analyze_performance sample_store (jan 15) (jan 16)) = [2%Z; 1%Z] /\
  map sla_breaches (analyze_performance sample_store (jan 15) (jan 16)) = [1%Z; 0%Z] /\
  map (fun m => Qred (error_rate m))
      (analyze_performance sample_store (jan 15) (jan 16)) = [50%Q; 0%Q] /\
  map (fun m => option_map Qred (avg_response_time m))
      (analyze_performance sample_store (jan 15) (jan 16)) = [Some (13 # 4)%Q; None] /\
  analyze_performance sample_store (jan 14) (jan 14) = [] /\
  analyze_performance sample_store (jan 16) (jan 15) = [].
Proof. vm_compute. repeat split; reflexivity. Qed.



Lemma missing_currency_by_null_kind_witness :
  has_fields tx_none_currency (PyStr "M1") (PyInt 10) PyNone (PyStr "credit")
    (PyFloat (FFin 1)) /\
  has_fields tx_nan_currency (PyStr "M1") (PyInt 10) (PyFloat FNaN) (PyStr "credit")
    (PyFloat (FFin 1)) /\
  (forall float_repr, exists codes,
      validate_transaction float_repr tx_none_currency = Ok (false, codes) /\
      In "MISSING_CURRENCY" codes /\ In "INVALID_CURRENCY" codes) /\
  (forall float_repr, exists codes,
      validate_transaction float_repr tx_nan_currency = Ok (false, codes) /\
      In "MISSING_CURRENCY" codes /\ ~ In "INVALID_CURRENCY" codes).
Proof.
  split; [apply has_fields_tx_of|]. split; [apply has_fields_tx_of|].
  split; intros r.
  - exact (proj1 (missing_currency_by_null_kind r) tx_none_currency (PyStr "M1")
             (PyInt 10) (PyStr "credit") (PyFloat (FFin 1))
             (FFin (inject_Z 10)) (FFin 1)
             (has_fields_tx_of _ _ _ _ _) eq_refl eq_refl).
  - exact (proj1 (proj2 (missing_currency_by_null_kind r)) tx_nan_currency
             (PyStr "M1") (PyInt 10) (PyStr "credit") (PyFloat (FFin 1))
             (FFin (inject_Z 10)) (FFin 1)
             (has_fields_tx_of _ _ _ _ _) eq_refl eq_refl).
Defined.


Lemma action_items_spec_witness :
  float_lt (FFin 4) (FFin 0) = false /\ float_lt (FFin 1) (FFin 0) = false /\
  (0 <= 0)%Z /\
  split_lines
    (generate_action_items
       {| s_total_transactions := 0; s_avg_response_time := FFin 0;
          s_error_rate := FFin 0; s_sla_breaches := 0 |}) = [no_action_item].
Proof.
  split; [reflexivity|]. split; [reflexivity|]. split; [lia|].
  pose proof (action_items_spec
                {| s_total_transactions := 0; s_avg_response_time := FFin 0;
                   s_error_rate := FFin 0; s_sla_breaches := 0 |})
    as (_ & _ & _ & _ & _ & Hnone & _).
  apply Hnone; [reflexivity|reflexivity|cbn; lia].
Defined.

Lemma no_data_report_witness :
  transactions_on sample_store (jan 14) = [] /\
  analyze_performance sample_store (jan 14) (jan 14) = [] /\
  generate_daily_report sample_store (jan 14) = Ok no_data_message.
Proof.
  split; [reflexivity|].
  exact (proj1 no_data_report sample_store (jan 14) eq_refl).
Defined.

Lemma report_formats_queried_metrics_witness :
  transactions_on sample_store (jan 15) <> [] /\
  analyze_performance sample_store (jan 15) (jan 15) =
    [spec_metrics sample_store (jan 15)] /\
  generate_daily_report sample_store (jan 15) =
    render_report (jan 15) (spec_metrics sample_store (jan 15)).
Proof.
  assert (transactions_on sample_store (jan 15) <> []) as Hne
    by (vm_compute; discriminate).
  split; [exact Hne|].
  exact (proj1 report_formats_queried_metrics sample_store (jan 15) Hne).
Defined.

(** * Further properties of the validator *)

Section ValidatorFurther.

Variable float_repr : Q -> string.

Lemma validate_transaction_unfold (tx : transaction) :
  validate_transaction float_repr tx =
  let! vm := getitem tx "merchant_id" in
  let! va := getitem tx "amount" in
  let! vc := getitem tx "currency" in
  let! vk := getitem tx "card_type" in
  let! ba := py_le va 0 in
  let! vp := getitem tx "processing_time" in
  let! bp := py_gt vp 4 in
  Ok ((length (spec_error_codes float_repr vm va vc vk
                 (default FNaN (as_number va)) (default FNaN (as_number vp))) =? 0)%nat,
      spec_error_codes float_repr vm va vc vk
        (default FNaN (as_number va)) (default FNaN (as_number vp))).
Proof.
  unfold validate_transaction. rewrite check_required_fields.
  destruct (getitem tx "merchant_id") as [vm|] eqn:Hm; [|reflexivity].
  destruct (getitem tx "amount") as [va|] eqn:Ha; [|reflexivity].
  destruct (getitem tx "currency") as [vc|] eqn:Hc; [|reflexivity].
  destruct (getitem tx "card_type") as [vk|] eqn:Hk; [|reflexivity].
  cbn [bind]. unfold py_le.
  destruct (as_number va) as [a|] eqn:Hna; [|reflexivity].
  cbn [bind].
  destruct (getitem tx "processing_time") as [vp|] eqn:Hp; [|reflexivity].
  cbn [bind]. unfold py_gt.
  destruct (as_number vp) as [p|] eqn:Hnp; [|reflexivity].
  cbn [bind default]. rewrite !append_code_if. unfold spec_error_codes.
  rewrite <- !app_assoc. reflexivity.
Qed.


Lemma validate_agree (tx1 tx2 : transaction) :
  (forall k, In k validated_fields -> tx1 !! k = tx2 !! k) ->
  validate_transaction float_repr tx1 = validate_transaction float_repr tx2.
Proof.
  intros Hagree. rewrite !validate_transaction_unfold. unfold getitem.
  rewrite !(Hagree "merchant_id"), !(Hagree "amount"), !(Hagree "currency"),
    !(Hagree "card_type"), !(Hagree "processing_time");
    [reflexivity|unfold validated_fields; cbn [In]; auto 10..].
Qed.

(** X2. The validator reads the five fields and nothing else: two
    transactions that agree on them get the same outcome, so setting or
    removing any other field (transaction_id, timestamp, region, ...)
    changes neither the verdict nor the exception. *)
Theorem validate_reads_five_fields :
  (forall tx1 tx2 : transaction,
      (forall k, In k validated_fields -> tx1 !! k = tx2 !! k) ->
      validate_transaction float_repr tx1 = validate_transaction float_repr tx2) /\
  (forall (tx : transaction) k v,
      ~ In k validated_fields ->
      validate_transaction float_repr (<[k:=v]> tx) =
      validate_transaction float_repr tx) /\
  (forall (tx : transaction) k,
      ~ In k validated_fields ->
      validate_transaction float_repr (delete k tx) =
      validate_transaction float_repr tx).
Proof.
  split; [exact validate_agree|]. split.
  - intros tx k v Hk. apply validate_agree. intros k' Hk'.
    apply lookup_insert_ne. intros ->. exact (Hk Hk').
  - intros tx k Hk. apply validate_agree. intros k' Hk'.
    apply lookup_delete_ne. intros ->. exact (Hk Hk').
Qed.

Lemma code_if_nil b code : code_if b code = [] <-> b = false.
Proof. destruct b; cbn [code_if]; split; congruence. Qed.

Lemma spec_error_codes_nil vm va vc vk a p :
  spec_error_codes float_repr vm va vc vk a p = [] <->
  pd_isna vm = false /\ pd_isna va = false /\ pd_isna vc = false /\
  pd_isna vk = false /\ float_le a (FFin 0) = false /\
  String.length (py_str float_repr vc) = 3%nat /\ float_lt (FFin 4) p = false.
Proof.
  unfold spec_error_codes.
  rewrite !app_nil, !code_if_nil, negb_false_iff, Nat.eqb_eq. tauto.
Qed.

(** X3. When a transaction is valid: the verdict is [(True, [])] exactly
    when the five fields are present, none of the four required fields is
    null, the amount is a number that is not [<= 0], the text of the currency
    has three characters and the processing time is a number that is not
    [> 4.0]. A processing time that is NaN passes the last test. *)
Theorem validate_valid_iff (tx : transaction) :
  validate_transaction float_repr tx = Ok (true, []) <->
  exists vm va vc vk vp a p,
    has_fields tx vm va vc vk vp /\
    as_number va = Some a /\ as_number vp = Some p /\
    pd_isna vm = false /\ pd_isna va = false /\ pd_isna vc = false /\
    pd_isna vk = false /\ float_le a (FFin 0) = false /\
    String.length (py_str float_repr vc) = 3%nat /\ float_lt (FFin 4) p = false.
Proof.
  split.
  - intros H. apply validate_transaction_Ok in H
      as (vm & va & vc & vk & vp & a & p & Hf & Ha & Hp & Hc & _).
    exists vm, va, vc, vk, vp, a, p.
    split; [exact Hf|]. split; [exact Ha|]. split; [exact Hp|].
    apply spec_error_codes_nil. symmetry. exact Hc.
  - intros (vm & va & vc & vk & vp & a & p & Hf & Ha & Hp & Hnil).
    rewrite (validate_transaction_eq _ _ _ _ _ _ _ _ _ Hf Ha Hp).
    apply spec_error_codes_nil in Hnil. rewrite Hnil. reflexivity.
Qed.

Lemma code_if_sublist b code (l k : list string) :
  l `sublist_of` k -> code_if b code ++ l `sublist_of` code :: k.
Proof.
  intros H. destruct b; cbn [code_if app];
    [apply sublist_skip|apply sublist_cons]; exact H.
Qed.

Lemma length_code_if b code : (length (code_if b code) <= 1)%nat.
Proof. destruct b; cbn; lia. Qed.

Lemma spec_error_codes_sublist vm va vc vk a p :
  spec_error_codes float_repr vm va vc vk a p `sublist_of` all_error_codes.
Proof.
  unfold spec_error_codes, all_error_codes.
  do 6 apply code_if_sublist.
  rewrite <- (app_nil_r (code_if _ _)). apply code_if_sublist. constructor.
Qed.

(** X4. The shape of every returned list: it is a subsequence of the seven
    codes in their fixed order, so no code is repeated and no other text
    occurs; MISSING_AMOUNT and INVALID_AMOUNT never occur together, so the
    list has at most six codes. *)
Theorem validate_codes_shape tx valid codes :
  validate_transaction float_repr tx = Ok (valid, codes) ->
  codes `sublist_of` all_error_codes /\
  List.NoDup codes /\
  ~ (In "MISSING_AMOUNT" codes /\ In "INVALID_AMOUNT" codes) /\
  (length codes <= 6)%nat.
Proof.
  intros H. apply validate_transaction_Ok in H
    as (vm & va & vc & vk & vp & a & p & Hf & Ha & Hp & -> & _).
  pose proof (spec_error_codes_sublist vm va vc vk a p) as Hsub.
  assert (~ (In "MISSING_AMOUNT" (spec_error_codes float_repr vm va vc vk a p) /\
             In "INVALID_AMOUNT" (spec_error_codes float_repr vm va vc vk a p)))
    as Hexcl.
  { rewrite !in_spec_error_codes. intros [Hmiss Hinv].
    assert (pd_isna va = true) as Hna by (intuition (try discriminate; auto)).
    assert (float_le a (FFin 0) = true) as Hle by (intuition (try discriminate; auto)).
    destruct va as [| | |[]|]; try discriminate Hna; inversion Ha; subst a.
    discriminate Hle. }
  split; [exact Hsub|]. split; [|split; [exact Hexcl|]].
  - apply NoDup_ListNoDup. eapply sublist_NoDup; [|exact Hsub].
    apply NoDup_ListNoDup. unfold all_error_codes.
    repeat constructor; cbn [In]; intuition discriminate.
  - assert (length (code_if (pd_isna va) "MISSING_AMOUNT")
            + length (code_if (float_le a (FFin 0)) "INVALID_AMOUNT") <= 1)%nat.
    { destruct (pd_isna va) eqn:Hna; [|destruct (float_le a (FFin 0)); cbn; lia].
      destruct va as [| | |[]|]; try discriminate Hna; inversion Ha; subst a.
      cbn. lia. }
    unfold spec_error_codes. rewrite !length_app.
    pose proof (length_code_if (pd_isna vm) "MISSING_MERCHANT_ID").
    pose proof (length_code_if (pd_isna vc) "MISSING_CURRENCY").
    pose proof (length_code_if (pd_isna vk) "MISSING_CARD_TYPE").
    pose proof (length_code_if (negb (String.length (py_str float_repr vc) =? 3)%nat)
                  "INVALID_CURRENCY").
    pose proof (length_code_if (float_lt (FFin 4) p) "SLA_BREACH").
    lia.
Qed.

End ValidatorFurther.

(** * Further properties of the aggregation query *)

Lemma date_le_correct a b :
  date_le a b <->
  ~ (year b < year a \/
     (year b = year a /\
      (month b < month a \/ (month b = month a /\ day b < day a))))%nat.
Proof.
  unfold date_le, date_leb.
  rewrite negb_true_iff, <- not_true_iff_false, date_ltb_correct. tauto.
Qed.

Lemma date_le_trans a b c : date_le a b -> date_le b c -> date_le a c.
Proof. rewrite !date_le_correct. lia. Qed.

Lemma date_lt_not_le a b : date_lt a b -> ~ date_le b a.
Proof. unfold date_lt. rewrite date_le_correct, date_ltb_correct. tauto. Qed.

Lemma in_range_false_no_date s e r : timestamp r = None -> in_range s e r = false.
Proof. unfold in_range. intros ->. reflexivity. Qed.

Lemma in_range_false_outside s e r t :
  timestamp r = Some t -> date_lt (ts_date t) s \/ date_lt e (ts_date t) ->
  in_range s e r = false.
Proof.
  unfold in_range. intros -> Hout. cbn [sql_DATE].
  apply not_true_iff_false. rewrite andb_true_iff. intros [Hs He].
  destruct Hout as [H|H]; eapply date_lt_not_le; eauto.
Qed.

Lemma analyze_unselected_row store1 r store2 s e :
  in_range s e r = false ->
  analyze_performance (store1 ++ r :: store2) s e =
  analyze_performance (store1 ++ store2) s e.
Proof.
  intros Hr. unfold analyze_performance.
  rewrite !List.filter_app. cbn [List.filter]. rewrite Hr. reflexivity.
Qed.

(** X5. Rows the WHERE clause does not select never show in the result:
    adding or removing, anywhere in the store, a row without a time stamp
    or a row dated before [start_date] or after [end_date] leaves the result
    of the query unchanged. *)
Theorem analyze_ignores_unselected_rows :
  (forall store1 r store2 s e,
      timestamp r = None ->
      analyze_performance (store1 ++ r :: store2) s e =
      analyze_performance (store1 ++ store2) s e) /\
  (forall store1 r store2 s e t,
      timestamp r = Some t ->
      date_lt (ts_date t) s \/ date_lt e (ts_date t) ->
      analyze_performance (store1 ++ r :: store2) s e =
      analyze_performance (store1 ++ store2) s e).
Proof.
  split.
  - intros store1 r store2 s e Hr. apply analyze_unselected_row.
    apply in_range_false_no_date. exact Hr.
  - intros store1 r store2 s e t Hr Hout. apply analyze_unselected_row.
    exact (in_range_false_outside _ _ _ _ Hr Hout).
Qed.

Lemma column_sum_app xs ys : column_sum (xs ++ ys) = (column_sum xs + column_sum ys)%Z.
Proof.
  unfold column_sum. induction xs as [|x xs IH]; cbn [app fold_right]; lia.
Qed.

Lemma no_group_for_other_date (ds : list Date) d0 :
  ~ In d0 ds ->
  column_sum (map (fun d => if date_eqb d d0 then 1%Z else 0%Z) ds) = 0%Z.
Proof.
  induction ds as [|d ds IH]; [reflexivity|]. intros Hnotin.
  change (column_sum (map (fun d => if date_eqb d d0 then 1%Z else 0%Z) (d :: ds)))
    with ((if date_eqb d d0 then 1 else 0)
          + column_sum (map (fun d => if date_eqb d d0 then 1%Z else 0%Z) ds))%Z.
  rewrite IH by (intros Hin; apply Hnotin; right; exact Hin).
  destruct (date_eqb d d0) eqn:Heq; [|reflexivity].
  apply date_eqb_correct in Heq as ->. exfalso. apply Hnotin. left. reflexivity.
Qed.

(** Among distinct dates, exactly one is the date of a dated row. *)
Lemma one_group_per_row (ds : list Date) d0 :
  List.NoDup ds -> In d0 ds ->
  column_sum (map (fun d => if date_eqb d d0 then 1%Z else 0%Z) ds) = 1%Z.
Proof.
  induction 1 as [|d ds Hnotin Hnd IH]; [intros []|].
  change (column_sum (map (fun d => if date_eqb d d0 then 1%Z else 0%Z) (d :: ds)))
    with ((if date_eqb d d0 then 1 else 0)
          + column_sum (map (fun d => if date_eqb d d0 then 1%Z else 0%Z) ds))%Z.
  intros [->|Hin].
  - rewrite (no_group_for_other_date ds d0 Hnotin).
    assert (date_eqb d0 d0 = true) as -> by (apply date_eqb_correct; reflexivity).
    reflexivity.
  - rewrite (IH Hin). destruct (date_eqb d d0) eqn:Heq; [|reflexivity].
    apply date_eqb_correct in Heq as ->. contradiction.
Qed.

(** Every dated row is counted in exactly one group. *)
Lemma groups_partition (f : TransactionRow -> bool) (ds : list Date) rows :
  List.NoDup ds ->
  (forall r, In r rows -> exists d, sql_DATE (timestamp r) = Some d /\ In d ds) ->
  column_sum (map (fun d => count f (List.filter (on_date d) rows)) ds) =
  count f rows.
Proof.
  intros Hnd. induction rows as [|r rows IH]; intros Hdated.
  - unfold count. cbn [List.filter length]. clear.
    induction ds as [|d ds IH]; [reflexivity|].
    unfold column_sum in *. cbn [map fold_right]. lia.
  - destruct (Hdated r) as (d0 & Hd0 & Hin0); [left; reflexivity|].
    assert (forall d, count f (List.filter (on_date d) (r :: rows)) =
                      ((if date_eqb d d0 then (if f r then 1 else 0) else 0)
                       + count f (List.filter (on_date d) rows))%Z) as Hstep.
    { intros d.
      assert (on_date d r = date_eqb d d0) as Hon
        by (unfold on_date; rewrite Hd0; reflexivity).
      unfold count. cbn [List.filter]. rewrite Hon.
      destruct (date_eqb d d0); [|lia].
      cbn [List.filter]. destruct (f r); cbn [length]; lia. }
    rewrite (map_ext _ _ Hstep).
    assert (forall (g h : Date -> Z) l,
              column_sum (map (fun d => (g d + h d)%Z) l) =
              (column_sum (map g l) + column_sum (map h l))%Z) as Hadd.
    { intros g h l. unfold column_sum. induction l; cbn; lia. }
    rewrite Hadd, IH by (intros r' Hr'; apply Hdated; right; exact Hr').
    assert (count f (r :: rows) = ((if f r then 1 else 0) + count f rows)%Z) as ->.
    { unfold count. cbn [List.filter]. destruct (f r); cbn [length]; lia. }
    destruct (f r).
    + rewrite (one_group_per_row ds d0 Hnd Hin0). reflexivity.
    + assert (column_sum (map (fun d => if date_eqb d d0 then 0%Z else 0%Z) ds) = 0%Z)
        as ->; [|reflexivity].
      unfold column_sum. clear. induction ds as [|d ds IH]; [reflexivity|].
      cbn [map fold_right]. destruct (date_eqb d d0); lia.
Qed.

Lemma selected_rows_dated store s e r :
  In r (List.filter (in_range s e) store) ->
  exists d, sql_DATE (timestamp r) = Some d /\
            In d (group_dates (List.filter (in_range s e) store)).
Proof.
  intros Hin. pose proof Hin as Hin'. apply filter_In in Hin' as [_ Hr].
  apply in_range_correct in Hr as (d & Hd & _). exists d. split; [exact Hd|].
  apply group_dates_In. eauto.
Qed.

(** X6. Every selected transaction is counted on exactly one day: the
    daily totals add up to the number of transactions dated within the
    range, and the daily breach counts (the dashboard's "Total SLA Breaches")
    add up to the number of those whose processing time exceeds 4.0. *)
Theorem daily_counts_add_up store s e :
  column_sum (map total_transactions (analyze_performance store s e)) =
    Z.of_nat (length (List.filter (in_range s e) store)) /\
  column_sum (map sla_breaches (analyze_performance store s e)) =
    count is_breach (List.filter (in_range s e) store) /\
  summary_breaches (analyze_performance store s e) =
    "Total SLA Breaches: "
    +:+ str_int (count is_breach (List.filter (in_range s e) store)).
Proof.
  assert (column_sum (map sla_breaches (analyze_performance store s e)) =
          count is_breach (List.filter (in_range s e) store)) as Hsla.
  { unfold analyze_performance. rewrite map_map. cbn [sla_breaches aggregate].
    rewrite (map_ext _ (fun d => count is_breach
               (List.filter (on_date d) (List.filter (in_range s e) store))))
      by (intros d; apply sql_SUM_flags, breach_flag_is_breach).
    apply groups_partition;
      [apply StronglySorted_NoDup, group_dates_sorted|apply selected_rows_dated]. }
  split; [|split; [exact Hsla|unfold summary_breaches; rewrite Hsla; reflexivity]].
  unfold analyze_performance. rewrite map_map. cbn [total_transactions aggregate].
  assert (forall rows, sql_COUNT rows = count (fun _ => true) rows) as Hcount.
  { intros rows. unfold sql_COUNT, count. f_equal. f_equal.
    induction rows as [|r rows IH]; [reflexivity|]. cbn [List.filter]. congruence. }
  rewrite (map_ext _ (fun d => count (fun _ => true)
             (List.filter (on_date d) (List.filter (in_range s e) store))))
    by (intros d; apply Hcount).
  rewrite groups_partition;
    [symmetry; apply Hcount|apply StronglySorted_NoDup, group_dates_sorted
    |apply selected_rows_dated].
Qed.

Lemma entry_of_date store s e d :
  date_le s d -> date_le d e -> transactions_on store d <> [] ->
  In (spec_metrics store d) (analyze_performance store s e).
Proof.
  intros Hs He Hne.
  assert (In d (group_dates (List.filter (in_range s e) store))) as Hin
    by (apply selected_dates_In; auto).
  unfold analyze_performance. apply in_map_iff. exists d. split; [|exact Hin].
  rewrite (group_is_whole_day _ _ _ _ Hs He). apply aggregate_spec.
Qed.

(** X7. A range query and the single-day queries agree: each entry of the
    result for a range is the whole result of the query for its own date
    alone, and the result of a single-day query for a date within the range
    is an entry of the range's result. *)
Theorem range_entries_are_daily_results store s e :
  (forall m, In m (analyze_performance store s e) ->
             analyze_performance store (date m) (date m) = [m]) /\
  (forall d m, date_le s d -> date_le d e ->
               In m (analyze_performance store d d) ->
               In m (analyze_performance store s e)).
Proof.
  split.
  - intros m Hin. apply result_entry in Hin as (Hm & _ & _ & Hne).
    rewrite analyze_single_date.
    destruct (transactions_on store (date m)); [congruence|]. rewrite <- Hm.
    reflexivity.
  - intros d m Hs He Hin. rewrite analyze_single_date in Hin.
    destruct (transactions_on store d) eqn:Hrows; [destruct Hin|].
    destruct Hin as [<-|[]]. apply entry_of_date; [exact Hs|exact He|].
    rewrite Hrows. discriminate.
Qed.

(** X8. Narrowing the range only drops entries: every entry of the result
    for a range within [start_date, end_date] is an entry of the result for
    [start_date, end_date]; and a range whose end precedes its start has no
    entry. *)
Theorem analyze_narrower_range store s e :
  (forall s' e' m,
      date_le s s' -> date_le e' e ->
      In m (analyze_performance store s' e') ->
      In m (analyze_performance store s e)) /\
  (date_lt e s -> analyze_performance store s e = []).
Proof.
  split.
  - intros s' e' m Hs He Hin.
    apply result_entry in Hin as (Hm & Hs' & He' & Hne). rewrite Hm.
    apply entry_of_date; [|  |exact Hne]; eapply date_le_trans; eauto.
  - intros Hlt. destruct (analyze_performance store s e) as [|m rest] eqn:Hres;
      [reflexivity|].
    assert (In m (analyze_performance store s e)) as Hin
      by (rewrite Hres; left; reflexivity).
    apply result_entry in Hin as (_ & Hs & He & _).
    exfalso. exact (date_lt_not_le _ _ Hlt (date_le_trans _ _ _ Hs He)).
Qed.

Lemma transactions_on_app store extra d :
  transactions_on (store ++ extra) d =
  transactions_on store d ++ transactions_on extra d.
Proof. unfold transactions_on. apply List.filter_app. Qed.

Lemma count_app f rows rows' : count f (rows ++ rows') = (count f rows + count f rows')%Z.
Proof. unfold count. rewrite List.filter_app, length_app. lia. Qed.

(** X9. Appending transactions to the store, as a load does, never removes
    a day from the result, and on each day the total and the number of
    breaches are those of the old rows plus those of the appended rows. *)
Theorem analyze_after_append store extra s e :
  (forall d, In d (map date (analyze_performance store s e)) ->
             In d (map date (analyze_performance (store ++ extra) s e))) /\
  (forall m, In m (analyze_performance (store ++ extra) s e) ->
     total_transactions m =
       (Z.of_nat (length (transactions_on store (date m)))
        + Z.of_nat (length (transactions_on extra (date m))))%Z /\
     sla_breaches m =
       (count is_breach (transactions_on store (date m))
        + count is_breach (transactions_on extra (date m)))%Z).
Proof.
  split.
  - intros d. rewrite !dates_of_result, !selected_dates_In.
    intros (Hs & He & Hne). split; [exact Hs|]. split; [exact He|].
    rewrite transactions_on_app. intros Happ. apply app_eq_nil in Happ as [H _].
    exact (Hne H).
  - intros m Hin. apply result_entry in Hin as (Hm & _).
    remember (date m) as d eqn:Hd. rewrite Hm.
    cbn [total_transactions sla_breaches spec_metrics].
    rewrite !transactions_on_app, !count_app, length_app, Nat2Z.inj_add.
    split; reflexivity.
Qed.

Lemma count_is_breach rows :
  count is_breach rows =
  Z.of_nat (length (List.filter over_threshold (non_null (map processing_time rows)))).
Proof.
  unfold count. f_equal. induction rows as [|r rows IH]; [reflexivity|].
  cbn [List.filter map non_null]. unfold is_breach at 1.
  destruct (processing_time r) as [t|]; [|exact IH].
  cbn [List.filter]. fold (over_threshold t).
  destruct (over_threshold t); cbn [length]; rewrite IH; reflexivity.
Qed.

Lemma Qsum_le_bound (c : Q) vs :
  List.Forall (fun v => v <= c)%Q vs ->
  (Qsum vs <= c * inject_Z (Z.of_nat (length vs)))%Q.
Proof.
  induction 1 as [|v vs Hv Hvs IH].
  - cbn. rewrite Qmult_0_r. apply Qle_refl.
  - cbn [Qsum fold_right length]. fold (Qsum vs).
    rewrite Nat2Z.inj_succ. unfold Z.succ.
    rewrite inject_Z_plus, Qmult_plus_distr_r, Qmult_1_r, Qplus_comm.
    apply Qplus_le_compat; assumption.
Qed.

Lemma Qsum_gt_bound (c : Q) vs :
  vs <> [] -> List.Forall (fun v => c < v)%Q vs ->
  (c * inject_Z (Z.of_nat (length vs)) < Qsum vs)%Q.
Proof.
  intros Hne Hall. induction Hall as [|v vs Hv Hvs IH]; [congruence|].
  cbn [Qsum fold_right length]. fold (Qsum vs).
  rewrite Nat2Z.inj_succ. unfold Z.succ.
  rewrite inject_Z_plus, Qmult_plus_distr_r, Qmult_1_r, Qplus_comm.
  destruct vs as [|w vs].
  - cbn. rewrite Qmult_0_r, !Qplus_0_r. exact Hv.
  - apply Qplus_lt_le_compat; [exact Hv|].
    apply Qlt_le_weak, IH. discriminate.
Qed.

Lemma no_breach_all_within vs :
  List.filter over_threshold vs = [] -> List.Forall (fun v => v <= 4)%Q vs.
Proof.
  induction vs as [|v vs IH]; [constructor|].
  cbn [List.filter]. unfold over_threshold at 1.
  destruct (Qle_bool v 4) eqn:Hle; cbn [negb]; [|discriminate].
  intros H. constructor; [apply Qle_bool_iff; exact Hle|auto].
Qed.

Lemma all_breach_all_over vs :
  length (List.filter over_threshold vs) = length vs ->
  List.Forall (fun v => 4 < v)%Q vs.
Proof.
  induction vs as [|v vs IH]; [constructor|].
  cbn [List.filter]. unfold over_threshold at 1.
  destruct (Qle_bool v 4) eqn:Hle; cbn [negb length].
  - intros H. pose proof (List.filter_length_le over_threshold vs). lia.
  - intros H. constructor; [|apply IH; lia].
    apply Qnot_le_lt. rewrite <- Qle_bool_iff, Hle. discriminate.
Qed.

Lemma non_null_length_le {A : Type} (xs : list (option A)) :
  (length (non_null xs) <= length xs)%nat.
Proof. induction xs as [|[x|] xs IH]; cbn [non_null length]; lia. Qed.

Lemma mean_Some vs a :
  mean vs = Some a ->
  vs <> [] /\ a = (Qsum vs / inject_Z (Z.of_nat (length vs)))%Q /\
  (0 < inject_Z (Z.of_nat (length vs)))%Q.
Proof.
  unfold mean. destruct vs as [|v vs]; [discriminate|]. intros [= <-].
  split; [discriminate|]. split; [reflexivity|].
  change 0%Q with (inject_Z 0). rewrite <- Zlt_Qlt. cbn [length]. lia.
Qed.

(** The values behind an entry whose average is not NULL. *)
Lemma entry_values store s e m a :
  In m (analyze_performance store s e) ->
  avg_response_time m = Some a ->
  exists vs,
    vs <> [] /\
    a = (Qsum vs / inject_Z (Z.of_nat (length vs)))%Q /\
    (0 < inject_Z (Z.of_nat (length vs)))%Q /\
    sla_breaches m = Z.of_nat (length (List.filter over_threshold vs)) /\
    (Z.of_nat (length vs) <= total_transactions m)%Z.
Proof.
  intros Hin Havg. apply result_entry in Hin as (Hm & _).
  remember (date m) as d eqn:Hd. rewrite Hm in Havg |- *.
  cbn [avg_response_time sla_breaches total_transactions spec_metrics] in *.
  exists (non_null (map processing_time (transactions_on store d))).
  apply mean_Some in Havg as (Hne & -> & Hpos).
  split; [exact Hne|]. split; [reflexivity|]. split; [exact Hpos|].
  split; [apply count_is_breach|].
  pose proof (non_null_length_le (map processing_time (transactions_on store d))) as H.
  rewrite length_map in H. lia.
Qed.

Lemma no_breach_average_within store s e m a :
  In m (analyze_performance store s e) ->
  avg_response_time m = Some a ->
  sla_breaches m = 0%Z -> (a <= 4)%Q.
Proof.
  intros Hin Havg H0.
  destruct (entry_values _ _ _ _ _ Hin Havg) as (vs & Hne & -> & Hpos & Hsla & _).
  apply Qle_shift_div_r; [exact Hpos|].
  apply Qsum_le_bound, no_breach_all_within.
  destruct (List.filter over_threshold vs); [reflexivity|].
  rewrite Hsla in H0. discriminate H0.
Qed.

Lemma average_above_has_breach store s e m a :
  In m (analyze_performance store s e) ->
  avg_response_time m = Some a ->
  (4 < a)%Q -> (1 <= sla_breaches m)%Z.
Proof.
  intros Hin Havg Hgt.
  destruct (entry_values _ _ _ _ _ Hin Havg) as (vs & _ & _ & _ & Hsla & _).
  destruct (Z.eq_dec (sla_breaches m) 0%Z) as [H0|]; [|lia].
  exfalso. exact (Qlt_not_le _ _ Hgt (no_breach_average_within _ _ _ _ _ Hin Havg H0)).
Qed.

(** X10. The two thresholds of one day are linked. On an entry whose
    average is not NULL: without a breach the average is at most 4, so an
    average above 4 comes with at least one breach; and when every
    transaction of the day is a breach the average is above 4. *)
Theorem average_and_breaches store s e m a :
  In m (analyze_performance store s e) ->
  avg_response_time m = Some a ->
  (sla_breaches m = 0%Z -> (a <= 4)%Q) /\
  ((4 < a)%Q -> (1 <= sla_breaches m)%Z) /\
  (sla_breaches m = total_transactions m -> (4 < a)%Q).
Proof.
  intros Hin Havg.
  split; [apply (no_breach_average_within _ _ _ _ _ Hin Havg)|].
  split; [apply (average_above_has_breach _ _ _ _ _ Hin Havg)|].
  intros Hall.
  destruct (entry_values _ _ _ _ _ Hin Havg) as (vs & Hne & -> & Hpos & Hsla & Hlen).
  pose proof (List.filter_length_le over_threshold vs) as Hle.
  apply Qlt_shift_div_l; [exact Hpos|].
  apply Qsum_gt_bound; [exact Hne|]. apply all_breach_all_over. lia.
Qed.

(** * Further properties of the evaluator and the report *)

Lemma action_lines_iff (metrics : Series) :
  (In urgent_item (split_lines (generate_action_items metrics)) <->
   float_lt (FFin 4) (s_avg_response_time metrics) = true) /\
  (In error_item (split_lines (generate_action_items metrics)) <->
   float_lt (FFin 1) (s_error_rate metrics) = true) /\
  (In (review_item (s_sla_breaches metrics))
      (split_lines (generate_action_items metrics)) <->
   (0 < s_sla_breaches metrics)%Z).
Proof.
  rewrite generate_action_items_lines.
  destruct (review_item_neq (s_sla_breaches metrics)) as (Hur & Her & Hnr).
  destruct fixed_items_neq as (Hue & Hun & Hen).
  unfold spec_action_items, code_if. rewrite <- Z.ltb_lt.
  destruct (float_lt (FFin 4) (s_avg_response_time metrics)),
    (float_lt (FFin 1) (s_error_rate metrics)),
    (0 <? s_sla_breaches metrics)%Z; cbn [app In];
    repeat split; intuition (try discriminate; try congruence).
Qed.

(** X11. In a daily report the urgent item never stands alone: the metrics
    come from the query, where an average above 4 means at least one breach,
    so whenever the urgent item is listed the item naming the breach count is
    listed too. *)
Theorem urgent_item_brings_review_item store s e m a :
  In m (analyze_performance store s e) ->
  avg_response_time m = Some a ->
  In urgent_item (split_lines (generate_action_items (series_of m a))) ->
  In (review_item (sla_breaches m))
     (split_lines (generate_action_items (series_of m a))).
Proof.
  intros Hin Havg Hurgent.
  destruct (action_lines_iff (series_of m a)) as (Hu & _ & Hr).
  cbn [series_of s_sla_breaches s_avg_response_time] in *.
  apply Hr. apply Hu in Hurgent. apply float_lt_finite in Hurgent.
  pose proof (average_above_has_breach _ _ _ _ _ Hin Havg Hurgent). lia.
Qed.

Lemma commas_rev_unfold l :
  commas_rev l =
  match l with
  | a :: b :: c :: d :: more => a :: b :: c :: ","%char :: commas_rev (d :: more)
  | _ => l
  end.
Proof. destruct l as [|a [|b [|c [|d more]]]]; reflexivity. Qed.

(** Induction in steps of three digits. *)
Lemma three_step_induction (P : list ascii -> Prop) :
  (forall l, (length l <= 3)%nat -> P l) ->
  (forall a b c d more, P (d :: more) -> P (a :: b :: c :: d :: more)) ->
  forall l, P l.
Proof.
  intros Hshort Hstep l.
  assert (forall n l, (length l <= n)%nat -> P l) as Hall; [|exact (Hall _ l (le_n _))].
  clear l. induction n as [|n IH]; intros l Hlen.
  - apply Hshort. lia.
  - destruct l as [|a [|b [|c [|d more]]]]; try (apply Hshort; cbn; lia).
    apply Hstep, IH. cbn [length] in *. lia.
Qed.

Lemma remove_commas_rev l :
  List.filter (fun c => negb (is_comma c)) (commas_rev l) =
  List.filter (fun c => negb (is_comma c)) l.
Proof.
  induction l as [l Hlen|a b c d more IH] using three_step_induction.
  - rewrite commas_rev_unfold.
    destruct l as [|a [|b [|c [|d more]]]]; try reflexivity.
    cbn [length] in Hlen. lia.
  - rewrite commas_rev_unfold. cbn [List.filter] in *. rewrite IH.
    change (negb (is_comma ","%char)) with false. cbn iota. reflexivity.
Qed.

Lemma uint_no_comma d :
  List.Forall (fun c => is_comma c = false)
    (list_ascii_of_string (NilEmpty.string_of_uint d)).
Proof.
  induction d; cbn [NilEmpty.string_of_uint list_ascii_of_string];
    [apply List.Forall_nil|apply List.Forall_cons; [reflexivity|assumption]..].
Qed.

Lemma str_int_abs_no_comma n :
  List.Forall (fun c => is_comma c = false) (list_ascii_of_string (str_int (Z.abs n))).
Proof.
  assert (forall d, List.Forall (fun c => is_comma c = false)
                      (list_ascii_of_string (NilZero.string_of_uint d))) as Huint.
  { intros d. unfold NilZero.string_of_uint.
    destruct d; try apply uint_no_comma.
    apply List.Forall_cons; [reflexivity|apply List.Forall_nil]. }
  destruct n as [|p|p]; apply Huint.
Qed.

Lemma filter_all_kept {A : Type} (f : A -> bool) l :
  List.Forall (fun x => f x = true) l -> List.filter f l = l.
Proof.
  induction 1 as [|x l Hx Hl IH]; [reflexivity|].
  cbn [List.filter]. rewrite Hx, IH. reflexivity.
Qed.

Lemma str_int_sign n :
  str_int n = (if (n <? 0)%Z then "-" else "") +:+ str_int (Z.abs n).
Proof. destruct n; reflexivity. Qed.

(** X12. Grouping the digits loses nothing: taking the commas out of
    [format(n, ",")] gives [str(n)] back, sign included. *)
Theorem format_thousands_round_trip n :
  remove_commas (format_thousands n) = str_int n.
Proof.
  rewrite (str_int_sign n). unfold format_thousands, remove_commas.
  set (digits := list_ascii_of_string (str_int (Z.abs n))).
  assert (List.filter (fun c => negb (is_comma c))
            (rev (commas_rev (rev digits))) = digits) as Hdigits.
  { rewrite List.filter_rev, remove_commas_rev, <- List.filter_rev, rev_involutive.
    apply filter_all_kept. eapply List.Forall_impl; [|apply str_int_abs_no_comma].
    intros c Hc. cbn beta in Hc. rewrite Hc. reflexivity. }
  destruct (n <? 0)%Z.
  - rewrite !append_cons. cbn [list_ascii_of_string List.filter].
    change (negb (is_comma "-"%char)) with true. cbn iota.
    cbn [string_of_list_ascii]. f_equal.
    change ("" +:+ ?x) with x.
    rewrite list_ascii_of_string_of_list_ascii, Hdigits.
    apply string_of_list_ascii_of_string.
  - change ("" +:+ ?x) with x.
    rewrite list_ascii_of_string_of_list_ascii, Hdigits.
    apply string_of_list_ascii_of_string.
Qed.

Lemma append_nil_l s : "" +:+ s = s.
Proof. reflexivity. Qed.

Lemma append_assoc s t u : (s +:+ t) +:+ u = s +:+ (t +:+ u).
Proof.
  induction s as [|c s IH]; [reflexivity|].
  rewrite !append_cons, IH. reflexivity.
Qed.

Lemma split_lines_nonempty s : split_lines s <> [].
Proof.
  destruct s as [|c s]; [discriminate|]. cbn [split_lines].
  destruct (Ascii.eqb c "010"); [discriminate|].
  destruct (split_lines s); discriminate.
Qed.

(** The lines of two texts joined by a newline are the lines of the one
    followed by the lines of the other. *)
Lemma split_lines_app_newline s t :
  split_lines (s +:+ newline +:+ t) = split_lines s ++ split_lines t.
Proof.
  induction s as [|c s IH]; [reflexivity|].
  rewrite append_cons. cbn [split_lines].
  destruct (Ascii.eqb c "010"); [rewrite IH; reflexivity|].
  rewrite IH. pose proof (split_lines_nonempty s) as Hne.
  destruct (split_lines s); [congruence|reflexivity].
Qed.

Lemma split_lines_prefix p s :
  has_newline p = false ->
  split_lines (p +:+ s) = indent_first_with p (split_lines s).
Proof.
  intros Hp. induction p as [|c p IH].
  - rewrite append_nil_l. unfold indent_first_with.
    pose proof (split_lines_nonempty s). destruct (split_lines s); [congruence|].
    reflexivity.
  - cbn [has_newline] in Hp. apply orb_false_iff in Hp as [Hc Hp].
    rewrite append_cons. cbn [split_lines]. rewrite Hc, (IH Hp).
    unfold indent_first_with. pose proof (split_lines_nonempty s).
    destruct (split_lines s); [congruence|reflexivity].
Qed.

Lemma has_newline_str_nat n : has_newline (str_nat n) = false.
Proof.
  unfold str_nat, NilZero.string_of_uint.
  destruct (Nat.to_uint n); try apply has_newline_uint. reflexivity.
Qed.

Lemma has_newline_zeros n : has_newline (zeros n) = false.
Proof. induction n as [|n IH]; [reflexivity|]. cbn [zeros has_newline]. exact IH. Qed.

Lemma has_newline_pad_left w s :
  has_newline s = false -> has_newline (pad_left w s) = false.
Proof.
  intros Hs. unfold pad_left. rewrite has_newline_app, has_newline_zeros, Hs.
  reflexivity.
Qed.

Lemma has_newline_iso_date d : has_newline (iso_date d) = false.
Proof.
  unfold iso_date.
  rewrite !has_newline_app, !has_newline_pad_left by apply has_newline_str_nat.
  reflexivity.
Qed.

Lemma has_newline_chars s :
  has_newline s = false ->
  List.Forall (fun c => Ascii.eqb c "010" = false) (list_ascii_of_string s).
Proof.
  induction s as [|c s IH]; [constructor|].
  cbn [has_newline list_ascii_of_string]. intros H.
  apply orb_false_iff in H as [Hc Hs]. constructor; auto.
Qed.

Lemma has_newline_of_chars l :
  List.Forall (fun c => Ascii.eqb c "010" = false) l ->
  has_newline (string_of_list_ascii l) = false.
Proof.
  induction 1 as [|c l Hc Hl IH]; [reflexivity|].
  cbn [string_of_list_ascii has_newline]. rewrite Hc, IH. reflexivity.
Qed.

Lemma commas_rev_no_newline l :
  List.Forall (fun c => Ascii.eqb c "010" = false) l ->
  List.Forall (fun c => Ascii.eqb c "010" = false) (commas_rev l).
Proof.
  induction l as [l Hlen|a b c d more IH] using three_step_induction.
  - rewrite commas_rev_unfold.
    destruct l as [|a [|b [|c [|d more]]]]; auto. cbn [length] in Hlen. lia.
  - rewrite commas_rev_unfold. intros Hall.
    inversion Hall as [|? ? Ha Hall1]; subst.
    inversion Hall1 as [|? ? Hb Hall2]; subst.
    inversion Hall2 as [|? ? Hc Hall3]; subst.
    repeat (constructor; [assumption || reflexivity|]). apply IH. exact Hall3.
Qed.

Lemma has_newline_format_thousands n : has_newline (format_thousands n) = false.
Proof.
  unfold format_thousands. rewrite has_newline_app.
  rewrite has_newline_of_chars.
  - destruct (n <? 0)%Z; reflexivity.
  - apply List.Forall_rev, commas_rev_no_newline, List.Forall_rev, has_newline_chars,
      has_newline_str_int.
Qed.

Lemma has_newline_format_2f q : has_newline (format_2f q) = false.
Proof.
  unfold format_2f.
  rewrite !has_newline_app, has_newline_pad_left, has_newline_str_int
    by apply has_newline_str_int.
  destruct (Qnum q <? 0)%Z; reflexivity.
Qed.

Lemma has_newline_sla_mark b : has_newline (sla_mark b) = false.
Proof. destruct b; reflexivity. Qed.

Lemma join_cons x y rest :
  join newline (x :: y :: rest) = x +:+ newline +:+ join newline (y :: rest).
Proof. reflexivity. Qed.

Ltac one_line :=
  rewrite ?has_newline_app, ?has_newline_iso_date, ?has_newline_format_thousands,
    ?has_newline_format_2f, ?has_newline_sla_mark;
  reflexivity.

(** Membership of a text among lines that start with literal characters. *)
Ltac listed_here :=
  solve [ repeat first [ left; reflexivity | right ] ].

Ltac listed := first [ listed_here | left; listed_here | right; listed_here ].

Ltac not_listed H :=
  repeat match type of H with
         | _ \/ _ => destruct H as [H|H]
         | In _ (_ :: _) => destruct H as [H|H]
         | In _ [] => destruct H
         | _ = _ => discriminate H
         end.

(** X13. The lines of a rendered report: fifteen lines at fixed places,
    then the action items, of which only the first carries the indentation
    of the template, then a last line of indentation. In these lines the
    response-time mark reads "Not Met" exactly when the urgent item is
    listed, and the error-rate mark reads "Not Met" exactly when the
    error-pattern item is listed. *)
Theorem report_layout d m text :
  render_report d m = Ok text ->
  exists a,
    avg_response_time m = Some a /\
    split_lines text =
      [ "";
        indent +:+ "Data Integrity Daily Report - " +:+ iso_date d;
        indent +:+ "=====================================";
        indent;
        indent +:+ "Transaction Summary:";
        indent +:+ "- Total Transactions: "
          +:+ format_thousands (total_transactions m);
        indent +:+ "- Average Response Time: " +:+ format_2f a +:+ "s";
        indent +:+ "- Error Rate: " +:+ format_2f (error_rate m) +:+ "%";
        indent +:+ "- SLA Breaches: " +:+ format_thousands (sla_breaches m);
        indent;
        indent +:+ "Performance Against SLA:";
        indent +:+ "- Response Time SLA (4s): " +:+ sla_mark (Qle_bool a 4);
        indent +:+ "- Error Rate SLA (1%): " +:+ sla_mark (Qle_bool (error_rate m) 1);
        indent;
        indent +:+ "Action Items:" ]
      ++ indent_first (spec_action_items (series_of m a)) ++ [indent] /\
    (In (indent +:+ "- Response Time SLA (4s): ✗ Not Met") (split_lines text) <->
     In (indent +:+ urgent_item) (split_lines text)) /\
    (In (indent +:+ "- Error Rate SLA (1%): ✗ Not Met") (split_lines text) <->
     In (indent +:+ error_item) (split_lines text) \/
     In error_item (split_lines text)).
Proof.
  unfold render_report. destruct (avg_response_time m) as [a|]; [|discriminate].
  intros [= <-]. exists a. split; [reflexivity|].
  match goal with |- ?lines = ?expected /\ _ =>
    assert (lines = expected) as Hlines end.
  { do 15 (rewrite split_lines_cons by one_line; cbn [app]; f_equal).
    rewrite split_lines_app_newline, split_lines_prefix by reflexivity.
    rewrite generate_action_items_lines. reflexivity. }
  split; [exact Hlines|]. rewrite Hlines. clear Hlines.
  unfold spec_action_items, series_of, code_if.
  cbn [s_avg_response_time s_error_rate s_sla_breaches float_lt].
  destruct (Qle_bool a 4), (Qle_bool (error_rate m) 1), (0 <? sla_breaches m)%Z;
    cbv [String.append indent urgent_item error_item review_item no_action_item
         sla_mark app indent_first indent_first_with negb];
    split; split; intros H; try listed; exfalso; not_listed H.
Qed.

Lemma mean_non_null_None rows :
  mean (non_null (map processing_time rows)) = None <->
  forall r, In r rows -> processing_time r = None.
Proof.
  unfold mean. induction rows as [|r rows IH]; cbn [map non_null].
  - split; [intros _ r []|reflexivity].
  - destruct (processing_time r) as [t|] eqn:Ht.
    + split; [discriminate|]. intros H. specialize (H r (or_introl eq_refl)). congruence.
    + rewrite IH. split.
      * intros H r' [<-|Hin]; auto.
      * intros H r' Hin. apply H. right. exact Hin.
Qed.

(** X14. What the daily report does on a date that has transactions. When
    none of them has a processing time the average is NULL and formatting it
    raises [TypeError]; so a report that is rendered, which is never the
    no-data message, comes from a date where some transaction has a
    processing time. A [KeyError] is never raised. *)
Theorem report_outcome store d :
  (transactions_on store d <> [] ->
   (forall r, In r (transactions_on store d) -> processing_time r = None) ->
   generate_daily_report store d = Raise TypeError) /\
  (forall text,
      transactions_on store d <> [] ->
      generate_daily_report store d = Ok text ->
      text <> no_data_message /\
      exists r, In r (transactions_on store d) /\ processing_time r <> None) /\
  (forall key, generate_daily_report store d <> Raise (KeyError key)).
Proof.
  unfold generate_daily_report. rewrite analyze_single_date.
  split; [|split].
  - intros Hne Hnull. destruct (transactions_on store d) eqn:Hrows; [congruence|].
    unfold render_report. cbn [avg_response_time spec_metrics].
    apply mean_non_null_None in Hnull. rewrite Hrows, Hnull. reflexivity.
  - intros text Hne Hrender.
    destruct (transactions_on store d) as [|r0 rows] eqn:Hrows; [congruence|].
    split; [eapply render_report_not_no_data; exact Hrender|].
    unfold render_report in Hrender.
    cbn [avg_response_time spec_metrics] in Hrender. rewrite Hrows in Hrender.
    destruct (mean (non_null (map processing_time (r0 :: rows)))) eqn:Hmean;
      [|discriminate Hrender].
    clear Hrender Hrows Hne. revert Hmean.
    generalize (r0 :: rows). intros l. induction l as [|r l IH].
    + discriminate.
    + intros Hmean. destruct (processing_time r) eqn:Hr.
      * exists r. split; [left; reflexivity|]. rewrite Hr. discriminate.
      * cbn [map non_null] in Hmean. rewrite Hr in Hmean.
        destruct (IH Hmean) as (r' & Hin & Hr'). exists r'. split; [right|]; assumption.
  - intros key. destruct (transactions_on store d); [discriminate|].
    unfold render_report. destruct (avg_response_time _); discriminate.
Qed.

Lemma Qsum_ge_bound (c : Q) vs :
  List.Forall (fun v => c <= v)%Q vs ->
  (c * inject_Z (Z.of_nat (length vs)) <= Qsum vs)%Q.
Proof.
  induction 1 as [|v vs Hv Hvs IH].
  - cbn. rewrite Qmult_0_r. apply Qle_refl.
  - cbn [Qsum fold_right length]. fold (Qsum vs).
    rewrite Nat2Z.inj_succ. unfold Z.succ.
    rewrite inject_Z_plus, Qmult_plus_distr_r, Qmult_1_r, Qplus_comm.
    apply Qplus_le_compat; assumption.
Qed.

Lemma entry_error_rate_bounds store s e m :
  In m (analyze_performance store s e) ->
  (0 <= error_rate m /\ error_rate m <= 100)%Q.
Proof.
  intros Hin. apply result_entry in Hin as (Hm & _ & _ & Hne).
  remember (date m) as d eqn:Hd. rewrite Hm.
  cbn [error_rate spec_metrics].
  apply percentage_bounds; [apply count_le_length|].
  destruct (transactions_on store d); [congruence|cbn [length]; lia].
Qed.

(** X15. The dashboard's "Average Error Rate" is the mean of the daily
    error rates of the range: a number between 0 and 100 whenever the range
    has an entry, and NaN, printed [nan%], when it has none. *)
Theorem dashboard_error_rate store s e :
  (analyze_performance store s e = [] ->
   column_mean (map error_rate (analyze_performance store s e)) = FNaN /\
   summary_error_rate (analyze_performance store s e) = "Average Error Rate: nan%") /\
  (analyze_performance store s e <> [] ->
   exists q,
     column_mean (map error_rate (analyze_performance store s e)) = FFin q /\
     (0 <= q /\ q <= 100)%Q).
Proof.
  split; [intros ->; split; reflexivity|]. intros Hne.
  assert (List.Forall (fun v => 0 <= v /\ v <= 100)%Q
            (map error_rate (analyze_performance store s e))) as Hall.
  { apply List.Forall_forall. intros v Hv. apply in_map_iff in Hv as (m & <- & Hm).
    exact (entry_error_rate_bounds _ _ _ _ Hm). }
  unfold column_mean.
  destruct (map error_rate (analyze_performance store s e)) as [|v vs] eqn:Hrates.
  { destruct (analyze_performance store s e); [congruence|discriminate Hrates]. }
  eexists. split; [reflexivity|].
  assert (0 < inject_Z (Z.of_nat (length (v :: vs))))%Q as Hpos.
  { change 0%Q with (inject_Z 0). rewrite <- Zlt_Qlt. cbn [length]. lia. }
  split.
  - apply Qle_shift_div_l; [exact Hpos|]. rewrite Qmult_0_l.
    rewrite <- (Qmult_0_l (inject_Z (Z.of_nat (length (v :: vs))))).
    apply Qsum_ge_bound. eapply List.Forall_impl; [|exact Hall]. intros x [H _]; exact H.
  - apply Qle_shift_div_r; [exact Hpos|].
    apply Qsum_le_bound. eapply List.Forall_impl; [|exact Hall]. intros x [_ H]; exact H.
Qed.

(** * The order of the rows in the store *)

Lemma sorted_dates_unique l1 l2 :
  StronglySorted date_lt l1 -> StronglySorted date_lt l2 ->
  (forall x, In x l1 <-> In x l2) -> l1 = l2.
Proof.
  intros H1. revert l2. induction H1 as [|a l1 Hs1 IH Hall1]; intros l2 H2 Hiff.
  - destruct l2 as [|b l2]; [reflexivity|].
    exfalso. apply (Hiff b). left. reflexivity.
  - destruct H2 as [|b l2 Hs2 Hall2].
    { exfalso. apply (Hiff a). left. reflexivity. }
    rewrite List.Forall_forall in Hall1, Hall2.
    assert (a = b) as ->.
    { destruct (proj1 (Hiff a) (or_introl eq_refl)) as [Hba|Hin2]; [congruence|].
      destruct (proj2 (Hiff b) (or_introl eq_refl)) as [Hab|Hin1]; [congruence|].
      exfalso. apply (date_lt_irrefl a).
      exact (date_lt_trans _ _ _ (Hall1 _ Hin1) (Hall2 _ Hin2)). }
    f_equal. apply IH; [exact Hs2|]. intros x. split; intros Hx.
    + destruct (proj1 (Hiff x) (or_intror Hx)) as [<-|Hin]; [|exact Hin].
      exfalso. exact (date_lt_irrefl _ (Hall1 _ Hx)).
    + destruct (proj2 (Hiff x) (or_intror Hx)) as [<-|Hin]; [|exact Hin].
      exfalso. exact (date_lt_irrefl _ (Hall2 _ Hx)).
Qed.

Lemma analyze_as_map store s e :
  analyze_performance store s e =
  map (spec_metrics store) (group_dates (List.filter (in_range s e) store)).
Proof.
  unfold analyze_performance. apply map_ext_in. intros d Hd.
  apply selected_dates_In in Hd as (Hs & He & _).
  rewrite (group_is_whole_day _ _ _ _ Hs He). apply aggregate_spec.
Qed.

Lemma Permutation_list_filter {A : Type} (f : A -> bool) l l' :
  Permutation l l' -> Permutation (List.filter f l) (List.filter f l').
Proof.
  induction 1 as [|x l l' Hp IH|x y l|l l' l'' Hp1 IH1 Hp2 IH2]; cbn [List.filter].
  - constructor.
  - destruct (f x); [constructor|]; exact IH.
  - destruct (f x), (f y); try apply Permutation_refl. apply perm_swap.
  - exact (perm_trans IH1 IH2).
Qed.

Lemma spec_metrics_Permutation store store' d :
  Permutation store store' ->
  same_counts (spec_metrics store d) (spec_metrics store' d).
Proof.
  intros Hp.
  assert (Permutation (transactions_on store d) (transactions_on store' d)) as Hday
    by (apply Permutation_list_filter; exact Hp).
  assert (forall f, count f (transactions_on store d) =
                    count f (transactions_on store' d)) as Hcount.
  { intros f. unfold count. f_equal.
    apply Permutation_length, Permutation_list_filter, Hday. }
  unfold same_counts, spec_metrics.
  cbn [date total_transactions error_rate sla_breaches].
  rewrite (Permutation_length Hday), !Hcount. repeat split.
Qed.

(** X17. The days and the counts of the result do not depend on the order
    of the rows in the table: two stores holding the same rows in different
    orders give the same dates in the same order with the same totals, error
    rates and breach counts. (The average is a sum in scan order and is left
    out.) *)
Theorem analyze_any_row_order store store' s e :
  Permutation store store' ->
  map date (analyze_performance store s e) =
    map date (analyze_performance store' s e) /\
  List.Forall2 same_counts
    (analyze_performance store s e) (analyze_performance store' s e).
Proof.
  intros Hp.
  assert (group_dates (List.filter (in_range s e) store) =
          group_dates (List.filter (in_range s e) store')) as Hdates.
  { apply sorted_dates_unique; try apply group_dates_sorted.
    intros d. rewrite !selected_dates_In, !transactions_on_nonempty.
    split; intros (Hs & He & r & Hin & Hr); (split; [exact Hs|]);
      (split; [exact He|]); exists r; (split; [|exact Hr]).
    - exact (Permutation_in _ Hp Hin).
    - exact (Permutation_in _ (Permutation_sym Hp) Hin). }
  split; [rewrite !dates_of_result; exact Hdates|].
  rewrite !analyze_as_map, <- Hdates. clear Hdates.
  induction (group_dates (List.filter (in_range s e) store)) as [|d ds IH];
    cbn [map]; [constructor|].
  constructor; [apply spec_metrics_Permutation; exact Hp|exact IH].
Qed.

(** * The breach threshold and the breach count *)

(** X18. The validator and the query agree on what a breach is: for a
    transaction and a stored row with the same processing time, SLA_BREACH is
    reported exactly when the row counts as a breach; a processing time that
    is NaN for the validator and NULL in the store is a breach for neither. *)
Theorem breach_agreement (float_repr : Q -> string) (tx : transaction)
    (r : TransactionRow) valid codes :
  validate_transaction float_repr tx = Ok (valid, codes) ->
  (forall t,
      tx !! "processing_time" = Some (PyFloat (FFin t)) ->
      processing_time r = Some t ->
      (In "SLA_BREACH" codes <-> breach_flag r = 1%Z)) /\
  (tx !! "processing_time" = Some (PyFloat FNaN) ->
   processing_time r = None ->
   ~ In "SLA_BREACH" codes /\ breach_flag r = 0%Z).
Proof.
  intros H. apply validate_transaction_Ok in H
    as (vm & va & vc & vk & vp & a & p & [_ _ _ _ Hp] & Ha & Hnp & -> & _).
  split.
  - intros t Htx Hr. rewrite Hp in Htx. injection Htx as ->.
    cbn [as_number] in Hnp. injection Hnp as <-.
    rewrite in_spec_error_codes. unfold breach_flag. rewrite Hr.
    cbn [float_lt]. destruct (Qle_bool t 4); cbn [negb];
      intuition (try discriminate; auto 10).
  - intros Htx Hr. rewrite Hp in Htx. injection Htx as ->.
    cbn [as_number] in Hnp. injection Hnp as <-.
    rewrite in_spec_error_codes. unfold breach_flag. rewrite Hr.
    cbn [float_lt]. intuition discriminate.
Qed.

Lemma length_append s t :
  String.length (s +:+ t) = (String.length s + String.length t)%nat.
Proof.
  induction s as [|c s IH]; [reflexivity|].
  rewrite append_cons. cbn [String.length]. rewrite IH. reflexivity.
Qed.

Lemma append_cancel_r s s' u : s +:+ u = s' +:+ u -> s = s'.
Proof.
  revert s'. induction s as [|c s IH]; intros [|c' s'] H.
  - reflexivity.
  - apply (f_equal String.length) in H. rewrite !length_append in H.
    cbn [String.length] in H. lia.
  - apply (f_equal String.length) in H. rewrite !length_append in H.
    cbn [String.length] in H. lia.
  - rewrite !append_cons in H. injection H as -> H. f_equal. exact (IH _ H).
Qed.

Lemma str_int_parse n : NilZero.int_of_string (str_int n) = Some (Z.to_int n).
Proof.
  unfold str_int. apply NilZero.isi.
  - destruct n as [|p|p]; cbn; try discriminate.
    intros [= H]. exact (Unsigned.to_uint_nonnil _ H).
  - destruct n as [|p|p]; cbn; try discriminate.
    intros [= H]. exact (Unsigned.to_uint_nonnil _ H).
Qed.

Lemma str_int_inj n n' : str_int n = str_int n' -> n = n'.
Proof.
  intros H. apply DecimalZ.to_int_inj.
  pose proof (str_int_parse n) as Hn. rewrite H, str_int_parse in Hn.
  congruence.
Qed.

(** X19. The item for the breaches names the count exactly: the digits in
    it parse back to the count, so two different counts never give the same
    item, and no count gives one of the other items. *)
Theorem review_item_names_count n n' :
  (review_item n = review_item n' -> n = n') /\
  (exists digits,
      review_item n =
        "- Review " +:+ digits +:+ " transactions exceeding response time SLA" /\
      option_map Z.of_int (NilZero.int_of_string digits) = Some n) /\
  review_item n <> urgent_item /\ review_item n <> error_item /\
  review_item n <> no_action_item.
Proof.
  split; [|split].
  - unfold review_item. intros H.
    repeat (rewrite !append_cons in H; injection H as H).
    rewrite !append_nil_l in H. apply append_cancel_r in H.
    exact (str_int_inj _ _ H).
  - exists (str_int n). split; [reflexivity|].
    rewrite str_int_parse. cbn [option_map]. f_equal. apply DecimalZ.of_to.
  - destruct (review_item_neq n) as (H1 & H2 & H3).
    repeat split; intros H; symmetry in H; contradiction.
Qed.

(** * The further theorems at concrete inputs *)


Lemma validate_reads_five_fields_witness :
  ~ In "region" validated_fields /\
  (forall float_repr,
      validate_transaction float_repr (<["region" := PyStr "EU"]> tx_many_errors) =
      validate_transaction float_repr tx_many_errors).
Proof.
  assert (~ In "region" validated_fields) as Hk.
  { unfold validated_fields. cbn [In]. intuition discriminate. }
  split; [exact Hk|]. intros r.
  exact (proj1 (proj2 (validate_reads_five_fields r)) tx_many_errors "region"
           (PyStr "EU") Hk).
Defined.

Lemma validate_valid_iff_witness :
  has_fields tx_nan_time (PyStr "M1") (PyInt 10) (PyStr "USD") (PyStr "credit")
    (PyFloat FNaN) /\
  float_lt (FFin 4) FNaN = false /\
  (forall float_repr, validate_transaction float_repr tx_nan_time = Ok (true, [])).
Proof.
  split; [apply has_fields_tx_of|]. split; [reflexivity|]. intros r.
  apply (proj2 (validate_valid_iff r tx_nan_time)).
  exists (PyStr "M1"), (PyInt 10), (PyStr "USD"), (PyStr "credit"), (PyFloat FNaN),
    (FFin (inject_Z 10)), FNaN.
  split; [apply has_fields_tx_of|]. repeat split; reflexivity.
Defined.

Lemma validate_codes_shape_witness :
  (forall float_repr,
      validate_transaction float_repr tx_many_errors =
      Ok (false, ["MISSING_MERCHANT_ID"; "MISSING_CARD_TYPE"; "INVALID_AMOUNT";
                  "INVALID_CURRENCY"])) /\
  (forall float_repr : Q -> string,
      ["MISSING_MERCHANT_ID"; "MISSING_CARD_TYPE"; "INVALID_AMOUNT"; "INVALID_CURRENCY"]
        `sublist_of` all_error_codes /\
      List.NoDup ["MISSING_MERCHANT_ID"; "MISSING_CARD_TYPE"; "INVALID_AMOUNT";
                  "INVALID_CURRENCY"] /\
      ~ (In "MISSING_AMOUNT" ["MISSING_MERCHANT_ID"; "MISSING_CARD_TYPE";
                              "INVALID_AMOUNT"; "INVALID_CURRENCY"] /\
         In "INVALID_AMOUNT" ["MISSING_MERCHANT_ID"; "MISSING_CARD_TYPE";
                              "INVALID_AMOUNT"; "INVALID_CURRENCY"]) /\
      (length ["MISSING_MERCHANT_ID"; "MISSING_CARD_TYPE"; "INVALID_AMOUNT";
               "INVALID_CURRENCY"] <= 6)%nat).
Proof.
  split; [intros r; vm_compute; reflexivity|]. intros r.
  apply (validate_codes_shape r tx_many_errors false). vm_compute. reflexivity.
Defined.

Lemma average_and_breaches_witness :
  In (spec_metrics slow_store (jan 20)) (analyze_performance slow_store (jan 1) (jan 31)) /\
  avg_response_time (spec_metrics slow_store (jan 20)) = Some (11 # 2)%Q /\
  ((sla_breaches (spec_metrics slow_store (jan 20)) = 0%Z -> (11 # 2 <= 4)%Q) /\
   ((4 < 11 # 2)%Q -> (1 <= sla_breaches (spec_metrics slow_store (jan 20)))%Z) /\
   (sla_breaches (spec_metrics slow_store (jan 20)) =
      total_transactions (spec_metrics slow_store (jan 20)) -> (4 < 11 # 2)%Q)).
Proof.
  assert (In (spec_metrics slow_store (jan 20))
            (analyze_performance slow_store (jan 1) (jan 31))) as Hin
    by (vm_compute; left; reflexivity).
  split; [exact Hin|]. split; [reflexivity|].
  exact (average_and_breaches slow_store (jan 1) (jan 31) _ (11 # 2)%Q Hin eq_refl).
Defined.

Lemma urgent_item_brings_review_item_witness :
  In (spec_metrics slow_store (jan 20)) (analyze_performance slow_store (jan 1) (jan 31)) /\
  avg_response_time (spec_metrics slow_store (jan 20)) = Some (11 # 2)%Q /\
  In urgent_item
    (split_lines (generate_action_items
                    (series_of (spec_metrics slow_store (jan 20)) (11 # 2)%Q))) /\
  In (review_item 2)
    (split_lines (generate_action_items
                    (series_of (spec_metrics slow_store (jan 20)) (11 # 2)%Q))).
Proof.
  assert (In (spec_metrics slow_store (jan 20))
            (analyze_performance slow_store (jan 1) (jan 31))) as Hin
    by (vm_compute; left; reflexivity).
  assert (In urgent_item
            (split_lines (generate_action_items
               (series_of (spec_metrics slow_store (jan 20)) (11 # 2)%Q)))) as Hu
    by (vm_compute; left; reflexivity).
  split; [exact Hin|]. split; [reflexivity|]. split; [exact Hu|].
  exact (urgent_item_brings_review_item slow_store (jan 1) (jan 31) _ (11 # 2)%Q
           Hin eq_refl Hu).
Defined.

Lemma report_layout_witness :
  generate_daily_report sample_store (jan 15) =
    render_report (jan 15) (spec_metrics sample_store (jan 15)) /\
  exists text,
    render_report (jan 15) (spec_metrics sample_store (jan 15)) = Ok text /\
    In (indent +:+ "- Error Rate SLA (1%): ✗ Not Met") (split_lines text) /\
    In (indent +:+ error_item) (split_lines text).
Proof.
  split; [vm_compute; reflexivity|].
  destruct (render_report (jan 15) (spec_metrics sample_store (jan 15)))
    as [text|] eqn:Hrender; [|vm_compute in Hrender; discriminate Hrender].
  exists text. split; [reflexivity|].
  destruct (report_layout _ _ _ Hrender) as (a & Ha & Hlines & _ & _).
  rewrite Hlines. injection Ha as <-. split.
  - vm_compute. do 12 right. left. reflexivity.
  - vm_compute. do 15 right. left. reflexivity.
Defined.

Lemma analyze_any_row_order_witness :
  Permutation sample_store sample_store_swapped /\
  map date (analyze_performance sample_store (jan 15) (jan 16)) =
    map date (analyze_performance sample_store_swapped (jan 15) (jan 16)) /\
  List.Forall2 same_counts
    (analyze_performance sample_store (jan 15) (jan 16))
    (analyze_performance sample_store_swapped (jan 15) (jan 16)).
Proof.
  assert (Permutation sample_store sample_store_swapped) as Hp by apply perm_swap.
  split; [exact Hp|].
  exact (analyze_any_row_order _ _ (jan 15) (jan 16) Hp).
Defined.

Lemma breach_agreement_witness :
  (forall float_repr,
      validate_transaction float_repr tx_five_seconds = Ok (false, ["SLA_BREACH"])) /\
  tx_five_seconds !! "processing_time" = Some (PyFloat (FFin 5)) /\
  processing_time (row "t2" (at_time (jan 15) 86399) (Some 5%Q) (Some "E01")) = Some 5%Q /\
  (forall float_repr : Q -> string,
      In "SLA_BREACH" ["SLA_BREACH"] <->
      breach_flag (row "t2" (at_time (jan 15) 86399) (Some 5%Q) (Some "E01")) = 1%Z).
Proof.
  split; [intros r; vm_compute; reflexivity|].
  split; [reflexivity|]. split; [reflexivity|]. intros r.
  assert (validate_transaction r tx_five_seconds = Ok (false, ["SLA_BREACH"])) as Hv
    by (vm_compute; reflexivity).
  exact (proj1 (breach_agreement r tx_five_seconds
                  (row "t2" (at_time (jan 15) 86399) (Some 5%Q) (Some "E01"))
                  false ["SLA_BREACH"] Hv)
           5%Q eq_refl eq_refl).
Defined.

Lemma analyze_ignores_unselected_rows_witness :
  timestamp (row "t4" None (Some 9%Q) None) = None /\
  analyze_performance sample_store (jan 15) (jan 16) =
  analyze_performance
    [ row "t1" (at_time (jan 15) 0) (Some 1.5%Q) None;
      row "t3" (at_time (jan 16) 43200) None None;
      row "t2" (at_time (jan 15) 86399) (Some 5%Q) (Some "E01");
      row "t5" (at_time (jan 17) 60) (Some 2%Q) None ]
    (jan 15) (jan 16).
Proof.
  split; [reflexivity|].
  exact (proj1 analyze_ignores_unselected_rows
           [ row "t1" (at_time (jan 15) 0) (Some 1.5%Q) None;
             row "t3" (at_time (jan 16) 43200) None None;
             row "t2" (at_time (jan 15) 86399) (Some 5%Q) (Some "E01") ]
           (row "t4" None (Some 9%Q) None)
           [ row "t5" (at_time (jan 17) 60) (Some 2%Q) None ]
           (jan 15) (jan 16) eq_refl).
Defined.

Lemma range_entries_are_daily_results_witness :
  In (spec_metrics sample_store (jan 15))
     (analyze_performance sample_store (jan 15) (jan 16)) /\
  analyze_performance sample_store (jan 15) (jan 15) =
    [spec_metrics sample_store (jan 15)].
Proof.
  assert (In (spec_metrics sample_store (jan 15))
            (analyze_performance sample_store (jan 15) (jan 16))) as Hin
    by (vm_compute; left; reflexivity).
  split; [exact Hin|].
  exact (proj1 (range_entries_are_daily_results sample_store (jan 15) (jan 16)) _ Hin).
Defined.

Lemma analyze_narrower_range_witness :
  date_le (jan 15) (jan 16) /\ date_le (jan 16) (jan 16) /\
  In (spec_metrics sample_store (jan 16))
     (analyze_performance sample_store (jan 16) (jan 16)) /\
  In (spec_metrics sample_store (jan 16))
     (analyze_performance sample_store (jan 15) (jan 16)) /\
  date_lt (jan 15) (jan 16) /\
  analyze_performance sample_store (jan 16) (jan 15) = [].
Proof.
  assert (In (spec_metrics sample_store (jan 16))
            (analyze_performance sample_store (jan 16) (jan 16))) as Hin
    by (vm_compute; left; reflexivity).
  split; [reflexivity|]. split; [reflexivity|]. split; [exact Hin|]. split.
  - exact (proj1 (analyze_narrower_range sample_store (jan 15) (jan 16))
             (jan 16) (jan 16) _ eq_refl eq_refl Hin).
  - split; [reflexivity|].
    exact (proj2 (analyze_narrower_range sample_store (jan 16) (jan 15)) eq_refl).
Defined.

Lemma analyze_after_append_witness :
  In (jan 15) (map date (analyze_performance sample_store (jan 1) (jan 31))) /\
  In (jan 15)
     (map date (analyze_performance (sample_store ++ slow_store) (jan 1) (jan 31))).
Proof.
  assert (In (jan 15) (map date (analyze_performance sample_store (jan 1) (jan 31))))
    as Hin by (vm_compute; left; reflexivity).
  split; [exact Hin|].
  exact (proj1 (analyze_after_append sample_store slow_store (jan 1) (jan 31)) _ Hin).
Defined.

Lemma report_outcome_witness :
  transactions_on sample_store (jan 16) <> [] /\
  (forall r, In r (transactions_on sample_store (jan 16)) -> processing_time r = None) /\
  generate_daily_report sample_store (jan 16) = Raise TypeError.
Proof.
  assert (transactions_on sample_store (jan 16) <> []) as Hne
    by (vm_compute; discriminate).
  assert (forall r, In r (transactions_on sample_store (jan 16)) ->
                    processing_time r = None) as Hnull.
  { intros r [<-|[]]. reflexivity. }
  split; [exact Hne|]. split; [exact Hnull|].
  exact (proj1 (report_outcome sample_store (jan 16)) Hne Hnull).
Defined.

Lemma dashboard_error_rate_witness :
  analyze_performance sample_store (jan 15) (jan 16) <> [] /\
  exists q,
    column_mean (map error_rate (analyze_performance sample_store (jan 15) (jan 16))) =
      FFin q /\
    (0 <= q /\ q <= 100)%Q.
Proof.
  assert (analyze_performance sample_store (jan 15) (jan 16) <> []) as Hne
    by (vm_compute; discriminate).
  split; [exact Hne|].
  exact (proj2 (dashboard_error_rate sample_store (jan 15) (jan 16)) Hne).
Defined.
